(** * pcups: a shallow embedding of [src/pcups/api.py] and [src/pcups/exceptions.py]

    The wrapper classes [CUPS], [Job] and [Printer] forward to the external
    [cups.Connection] object.  The external library is taken as a record of
    oracles over an abstract server state; the wrapper code is translated
    into a state-and-exception monad over that state, a log of the library
    calls made, and the fields of the receiving object. *)

From Stdlib Require Import ZArith List Ascii String Bool Lia.
From stdpp Require Import base option list strings pretty gmap.

Set Warnings "-register-all".

Local Open Scope Z_scope.

(** ** Python values *)

(** The fragment of Python's object universe the wrapper touches: [None],
    booleans, integers, strings and lists.  A [str] is the sequence of its
    code points; code points are restricted to those below 256. *)
Inductive pyval : Type :=
| VNone
| VBool (b : bool)
| VInt (z : Z)
| VStr (s : string)
| VList (l : list pyval).

(** A dict of attributes as returned by the library, keyed by [str]. *)
Abbreviation attrs := (gmap string pyval).

Module PyStr.

Definition code (c : ascii) : Z := Z.of_N (N_of_ascii c).

(** [str.isdigit] on code points below 256 that [int] accepts: ['0'..'9']. *)
Definition is_digit (c : ascii) : bool := (48 <=? code c) && (code c <=? 57).

Definition digit_value (c : ascii) : Z := code c - 48.

(** The white space [int] skips around a number, below 256: TAB..CR and
    SPACE as they are, and NEL and NBSP, which [int] first turns into
    spaces.  (FS..US are white space for [str.isspace] but not here.) *)
Definition is_space (c : ascii) : bool :=
  let n := code c in
  ((9 <=? n) && (n <=? 13)) || (n =? 32) || (n =? 133) || (n =? 160).

(** [Py_UNICODE_ISPRINTABLE] for code points in 128..255. *)
Definition is_printable_high (c : ascii) : bool :=
  let n := code c in (161 <=? n) && negb (n =? 173).

Definition hex_digit (n : Z) : ascii :=
  ascii_of_N (Z.to_N (if n <? 10 then 48 + n else 87 + n)).

Fixpoint contains (c : ascii) (s : string) : bool :=
  match s with
  | EmptyString => false
  | String d s' => Ascii.eqb c d || contains c s'
  end.

(** The quote [repr] picks: a double quote only when the text has a single
    quote and no double quote. *)
Definition squote : ascii := "'".
Definition dquote : ascii := ascii_of_N 34.

Definition repr_quote (s : string) : ascii :=
  if contains squote s && negb (contains dquote s) then dquote else squote.

Definition repr_char (quote c : ascii) : string :=
  let n := code c in
  if Ascii.eqb c quote || Ascii.eqb c "\" then String "\" (String c EmptyString)
  else if n =? 9 then "\t"
  else if n =? 10 then "\n"
  else if n =? 13 then "\r"
  else if (n <? 32) || (n =? 127) || ((128 <=? n) && negb (is_printable_high c))
       then String "\" (String "x" (String (hex_digit (n / 16))
                                       (String (hex_digit (n mod 16)) EmptyString)))
  else String c EmptyString.

Fixpoint repr_body (quote : ascii) (s : string) : string :=
  match s with
  | EmptyString => EmptyString
  | String c s' => repr_char quote c +:+ repr_body quote s'
  end.

(** [repr(s)] for a [str]. *)
Definition repr (s : string) : string :=
  let q := repr_quote s in
  String q (repr_body q s +:+ String q EmptyString).

(** [sep.join(parts)]. *)
Fixpoint join (sep : string) (parts : list string) : string :=
  match parts with
  | [] => EmptyString
  | [p] => p
  | p :: ps => p +:+ sep +:+ join sep ps
  end.

End PyStr.

(** [repr(v)] and [str(v)]; [str] differs from [repr] on strings only, and
    a list prints the [repr] of its items. *)
Fixpoint py_repr (v : pyval) : string :=
  match v with
  | VNone => "None"
  | VBool true => "True"
  | VBool false => "False"
  | VInt z => pretty z
  | VStr s => PyStr.repr s
  | VList l => "[" +:+ PyStr.join ", " (map py_repr l) +:+ "]"
  end.

Definition py_str (v : pyval) : string :=
  match v with
  | VStr s => s
  | _ => py_repr v
  end.

(** Python's [==] on this fragment: [bool] is a subclass of [int]. *)
Definition as_number (v : pyval) : option Z :=
  match v with
  | VBool b => Some (if b then 1 else 0)
  | VInt z => Some z
  | _ => None
  end.

Fixpoint py_eq (a b : pyval) : bool :=
  match a, b with
  | VNone, VNone => true
  | VStr s, VStr t => String.eqb s t
  | VList l, VList m =>
      (fix eq_items (l : list pyval) (m : list pyval) : bool :=
         match l, m with
         | [], [] => true
         | x :: l', y :: m' => py_eq x y && eq_items l' m'
         | _, _ => false
         end) l m
  | (VBool _ | VInt _), (VBool _ | VInt _) =>
      match as_number a, as_number b with
      | Some x, Some y => x =? y
      | _, _ => false
      end
  | _, _ => false
  end.

(** Truth value of [if v:]. *)
Definition py_truthy (v : pyval) : bool :=
  match v with
  | VNone => false
  | VBool b => b
  | VInt z => negb (z =? 0)
  | VStr s => negb (String.eqb s EmptyString)
  | VList l => match l with [] => false | _ => true end
  end.

(** ** Exceptions *)

(** The exception classes of [exceptions.py], the library's [IPPError] they
    derive from, and the built-in classes the wrapper can meet.  [OtherError]
    stands for any further class the library may raise that is unrelated to
    the ones named here. *)
Inductive exc_class : Type :=
| Exception
| IPPError
| PrintBaseException
| JobCompletedError
| JobNotFoundError
| JobDocumentNotAvailableError
| PrinterNotFoundError
| LookupError
| KeyError
| TypeError
| ValueError
| AttributeError
| RuntimeError
| NotImplementedError
| NameError
| UnboundLocalError
| OtherError (name : string).

#[global] Instance exc_class_eq_dec : EqDecision exc_class.
Proof. solve_decision. Defined.

(** The base class written in each [class] statement. *)
Definition base_class (c : exc_class) : option exc_class :=
  match c with
  | Exception => None
  | PrintBaseException => Some IPPError
  | JobCompletedError | JobNotFoundError
  | JobDocumentNotAvailableError | PrinterNotFoundError => Some PrintBaseException
  | KeyError => Some LookupError
  | NotImplementedError => Some RuntimeError
  | UnboundLocalError => Some NameError
  | _ => Some Exception
  end.

(** [issubclass(c, d)]: the inheritance chains above have at most four links. *)
Fixpoint subclass_upto (fuel : nat) (c d : exc_class) : bool :=
  bool_decide (c = d) ||
  match fuel, base_class c with
  | S fuel', Some b => subclass_upto fuel' b d
  | _, _ => false
  end.

Definition issubclass (c d : exc_class) : bool := subclass_upto 4 c d.

(** An exception instance: its class and the positional arguments it was
    built with ([e.args]); the wrapper's exceptions hold nothing else. *)
Record exn : Type := mk_exn { exn_class : exc_class; exn_args : list pyval }.

(** [except cls:] catches instances of [cls] and of its subclasses. *)
Definition caught_by (cls : exc_class) (e : exn) : bool :=
  issubclass (exn_class e) cls.

(** ** Results and the state-and-exception monad *)

Inductive res (A : Type) : Type :=
| Ok (a : A)
| Raise (e : exn).
Arguments Ok {A} a.
Arguments Raise {A} e.

Definition res_bind {A B} (r : res A) (k : A -> res B) : res B :=
  match r with
  | Ok a => k a
  | Raise e => Raise e
  end.

(** A computation over a state [St]; the state survives a [Raise], as the
    fields of a Python object survive an exception raised in a method. *)
Definition M (St A : Type) : Type := St -> res A * St.

Definition ret {St A} (a : A) : M St A := fun s => (Ok a, s).
Definition raise {St A} (e : exn) : M St A := fun s => (Raise e, s).
Definition bind {St A B} (m : M St A) (k : A -> M St B) : M St B :=
  fun s => match m s with
           | (Ok a, s') => k a s'
           | (Raise e, s') => (Raise e, s')
           end.
Definition lift_res {St A} (r : res A) : M St A := fun s => (r, s).
Definition get {St} : M St St := fun s => (Ok s, s).
Definition put {St} (s : St) : M St unit := fun _ => (Ok tt, s).

(** [try: body  except cls: handler]. *)
Definition try_except {St A} (body : M St A) (cls : exc_class)
    (handler : exn -> M St A) : M St A :=
  fun s => match body s with
           | (Ok a, s') => (Ok a, s')
           | (Raise e, s') =>
               if caught_by cls e then handler e s' else (Raise e, s')
           end.

Declare Scope py_scope.
Delimit Scope py_scope with py.
Notation "x <- m ;; k" := (bind m (fun x => k))
  (at level 100, m at next level, right associativity) : py_scope.
Notation "m ;;; k" := (bind m (fun _ => k))
  (at level 100, right associativity) : py_scope.
Local Open Scope py_scope.

(** [[f(x) for x in xs]]: the calls run left to right and the first
    exception ends the comprehension. *)
Fixpoint comprehension {St A B} (f : A -> M St B) (xs : list A) : M St (list B) :=
  match xs with
  | [] => ret []
  | x :: xs' => y <- f x ;; ys <- comprehension f xs' ;; ret (y :: ys)
  end.

(** ** Built-in operations used by the wrapper *)

(** [int(s)] for a [str]: optional surrounding white space, an optional sign,
    then decimal digits in which single underscores may separate digits. *)
Module PyInt.

Fixpoint skip_space (s : string) : string :=
  match s with
  | String c s' => if PyStr.is_space c then skip_space s' else s
  | EmptyString => EmptyString
  end.

Fixpoint scan_digits (after_underscore : bool) (acc : Z) (s : string)
  : option (Z * string) :=
  match s with
  | String c s' =>
      if PyStr.is_digit c
      then scan_digits false (10 * acc + PyStr.digit_value c) s'
      else if Ascii.eqb c "_"
           then if after_underscore then None else scan_digits true acc s'
           else if after_underscore then None else Some (acc, s)
  | EmptyString => if after_underscore then None else Some (acc, EmptyString)
  end.

Definition scan_number (s : string) : option (Z * string) :=
  match s with
  | String c s' =>
      if PyStr.is_digit c then scan_digits false (PyStr.digit_value c) s'
      else None
  | EmptyString => None
  end.

Definition scan_signed (s : string) : option (Z * string) :=
  match s with
  | String c s' =>
      if Ascii.eqb c "-"
      then match scan_number s' with
           | Some (z, r) => Some (- z, r)
           | None => None
           end
      else if Ascii.eqb c "+" then scan_number s'
      else scan_number s
  | EmptyString => None
  end.

Definition parse (s : string) : option Z :=
  match scan_signed (skip_space s) with
  | Some (z, r) =>
      match skip_space r with
      | EmptyString => Some z
      | _ => None
      end
  | None => None
  end.

End PyInt.

Definition py_int (s : string) : res Z :=
  match PyInt.parse s with
  | Some z => Ok z
  | None =>
      Raise (mk_exn ValueError
               [VStr ("invalid literal for int() with base 10: " +:+ PyStr.repr s)])
  end.

(** [type(v).__name__]. *)
Definition type_name (v : pyval) : string :=
  match v with
  | VNone => "NoneType"
  | VBool _ => "bool"
  | VInt _ => "int"
  | VStr _ => "str"
  | VList _ => "list"
  end.

Definition concat_error (kind : string) (b : pyval) : exn :=
  let q := String PyStr.dquote EmptyString in
  mk_exn TypeError
    [VStr ("can only concatenate " +:+ kind +:+ " (not " +:+ q +:+ type_name b
           +:+ q +:+ ") to " +:+ kind)].

Definition operand_error (a b : pyval) : exn :=
  mk_exn TypeError
    [VStr ("unsupported operand type(s) for +: '" +:+ type_name a +:+ "' and '"
           +:+ type_name b +:+ "'")].

(** [a + b]. *)
Definition py_add (a b : pyval) : res pyval :=
  match a, b with
  | VStr s, VStr t => Ok (VStr (s +:+ t))
  | VStr _, _ => Raise (concat_error "str" b)
  | VList l, VList m => Ok (VList (l ++ m))
  | VList _, _ => Raise (concat_error "list" b)
  | (VBool _ | VInt _), (VBool _ | VInt _) =>
      match as_number a, as_number b with
      | Some x, Some y => Ok (VInt (x + y))
      | _, _ => Raise (operand_error a b)
      end
  | _, _ => Raise (operand_error a b)
  end.

(** [int(v)]. *)
Definition py_int_of (v : pyval) : res Z :=
  match v with
  | VInt z => Ok z
  | VBool b => Ok (if b then 1 else 0)
  | VStr s => py_int s
  | _ =>
      Raise (mk_exn TypeError
               [VStr ("int() argument must be a string, a bytes-like object or a number, not '"
                      +:+ type_name v +:+ "'")])
  end.

(** [d[key]] where [d] is an attribute dict, or [None] (not subscriptable). *)
Definition getitem (d : option attrs) (key : string) : res pyval :=
  match d with
  | Some m =>
      match m !! key with
      | Some v => Ok v
      | None => Raise (mk_exn KeyError [VStr key])
      end
  | None => Raise (mk_exn TypeError [VStr "'NoneType' object is not subscriptable"])
  end.

(** [table.get(key)] on a dict with integer keys and string values: a missing
    key gives [None]; an unhashable key (a list) raises [TypeError]. *)
Definition int_dict_get (table : gmap Z string) (key : pyval) : res pyval :=
  match key with
  | VList _ => Raise (mk_exn TypeError [VStr "unhashable type: 'list'"])
  | _ =>
      match as_number key with
      | Some z => match table !! z with
                  | Some s => Ok (VStr s)
                  | None => Ok VNone
                  end
      | None => Ok VNone
      end
  end.

(** ["{}".format(v)] placed between [before] and [after]. *)
Definition format1 (before : string) (v : pyval) (after : string) : string :=
  before +:+ py_str v +:+ after.

(** ** The external library *)

(** One entry per call made on [cups] or on a [cups.Connection]. *)
Inductive call : Type :=
| CallConnection
| CallGetDefault
| CallGetPrinters
| CallGetPrinterAttributes (name : string)
| CallGetJobAttributes (jobid : pyval)
| CallCancelJob (jobid : pyval)
| CallRestartJob (jobid : pyval)
| CallPrintFile (name filename title : string) (options : gmap string string)
| CallDeletePrinter (name : string)
| CallDisablePrinter (name : string)
| CallEnablePrinter (name : string).

(** The print server as the wrapper sees it.  [W] is the state behind the
    library (queues, jobs, the spool directory); every call may change it and
    may raise.  [getPrinters] returns a dict keyed by queue name, of which the
    wrapper uses the keys only, in iteration order.  [spool] lists the entry
    names of [/var/spool/cups] as [Path.glob] scans them. *)
Class Library (W : Type) : Type := {
  Connection : W -> res unit * W;
  getDefault : W -> res (option string) * W;
  getPrinters : W -> res (list string) * W;
  getPrinterAttributes : string -> W -> res attrs * W;
  getJobAttributes : pyval -> W -> res attrs * W;
  cancelJob : pyval -> W -> res unit * W;
  restartJob : pyval -> W -> res unit * W;
  printFile : string -> string -> string -> gmap string string -> W -> res Z * W;
  deletePrinter : string -> W -> res unit * W;
  disablePrinter : string -> W -> res unit * W;
  enablePrinter : string -> W -> res unit * W;
  spool : W -> list string
}.

(** What a run of wrapper code threads along: the server state and the log
    of library calls made so far, oldest first. *)
Record env (W : Type) : Type := mk_env { world : W; calls : list call }.
Arguments mk_env {W} world calls.
Arguments world {W} e.
Arguments calls {W} e.

Section Runtime.
Context {W : Type} `{Library W}.

(** Make one library call and log it. *)
Definition invoke {A} (c : call) (f : W -> res A * W) : M (env W) A :=
  fun e => let (r, w') := f (world e) in
           (r, mk_env w' (calls e ++ [c])).

(** Method bodies run over the receiver's fields paired with [env]. *)
Definition get_self {O} : M (O * env W) O := fun s => (Ok (fst s), s).
Definition modify_self {O} (f : O -> O) : M (O * env W) unit :=
  fun s => (Ok tt, (f (fst s), snd s)).
Definition on_env {O A} (m : M (env W) A) : M (O * env W) A :=
  fun s => let (r, e') := m (snd s) in (r, (fst s, e')).

(** [cls(args)]: run [__init__] on a fresh object; the object is the value
    of the call when [__init__] returns, and is lost when it raises. *)
Definition construct {O} (fresh : O) (init : M (O * env W) unit) : M (env W) O :=
  fun e => match init (fresh, e) with
           | (Ok _, (o, e')) => (Ok o, e')
           | (Raise x, (_, e')) => (Raise x, e')
           end.

(** [BaseCUPS.__init__]: [self.conn = cups.Connection()].  Every handle
    reaches the same server, so the handle itself carries no data. *)
Definition BaseCUPS_init {O} : M (O * env W) unit :=
  on_env (invoke CallConnection Connection).

End Runtime.

(** ** [class Printer] *)

Module Printer.

(** The instance attributes assigned in [__init__] and by the [name]
    setter.  [attributes] is [None] or the dict fetched from the library. *)
Record t : Type := mk {
  job_id : pyval;
  attributes : option attrs;
  device_uri : pyval;
  location : pyval;
  default_message : string;
  _name : string
}.

Definition set_job_id (v : pyval) (p : t) : t :=
  mk v (attributes p) (device_uri p) (location p) (default_message p) (_name p).
Definition set_attributes (v : option attrs) (p : t) : t :=
  mk (job_id p) v (device_uri p) (location p) (default_message p) (_name p).
Definition set_device_uri (v : pyval) (p : t) : t :=
  mk (job_id p) (attributes p) v (location p) (default_message p) (_name p).
Definition set_location (v : pyval) (p : t) : t :=
  mk (job_id p) (attributes p) (device_uri p) v (default_message p) (_name p).
Definition set_default_message (v : string) (p : t) : t :=
  mk (job_id p) (attributes p) (device_uri p) (location p) v (_name p).
Definition set__name (v : string) (p : t) : t :=
  mk (job_id p) (attributes p) (device_uri p) (location p) (default_message p) v.

(** An object on which no attribute has been bound yet; [__init__] binds
    each field before anything reads it. *)
Definition unbound : t := mk VNone None VNone VNone EmptyString EmptyString.

Definition printer_states : gmap Z string :=
  list_to_map [(3, "Idle"); (4, "Processing"); (5, "Stopped")].

(** [__repr__] and [__str__]. *)
Definition repr (p : t) : string := format1 "Printer: <" (VStr (_name p)) ">".
Definition str (p : t) : string := format1 EmptyString (VStr (_name p)) EmptyString.

(** [__iter__]: the items that [list(self)] collects. *)
Definition iter (p : t) : list pyval := [VStr (_name p); device_uri p; location p].

Section Methods.
Context {W : Type} `{Library W}.

Definition name : M (t * env W) string :=
  self <- get_self ;; ret (_name self).

(** [valid] (getter): [self.name in self.conn.getPrinters()]. *)
Definition valid : M (t * env W) bool :=
  n <- name ;;
  printers <- on_env (invoke CallGetPrinters getPrinters) ;;
  if bool_decide (n ∈ printers) then ret true else ret false.

(** [valid] (setter). *)
Definition valid_setter (value : pyval) : M (t * env W) unit :=
  raise (mk_exn AttributeError [VStr "Valid is not a writable attribute."]).

(** [name] (setter). *)
Definition name_setter (new_name : string) : M (t * env W) unit :=
  modify_self (set__name new_name) ;;;
  v <- valid ;;
  if v then
    n <- name ;;
    a <- on_env (invoke (CallGetPrinterAttributes n) (getPrinterAttributes n)) ;;
    modify_self (set_attributes (Some a)) ;;;
    self <- get_self ;;
    uri <- lift_res (getitem (attributes self) "device-uri") ;;
    modify_self (set_device_uri uri) ;;;
    self <- get_self ;;
    loc <- lift_res (getitem (attributes self) "printer-location") ;;
    modify_self (set_location loc)
  else ret tt.

Definition init (new_name : string) : M (t * env W) unit :=
  BaseCUPS_init ;;;
  modify_self (set_job_id VNone) ;;;
  modify_self (set_attributes None) ;;;
  modify_self (set_device_uri VNone) ;;;
  modify_self (set_location VNone) ;;;
  modify_self (set_default_message "Unable to locate the printer.") ;;;
  name_setter new_name.

(** [Printer(name)]. *)
Definition new (new_name : string) : M (env W) t :=
  construct unbound (init new_name).

(** The statements guarded by [try:] in [status]. *)
Definition status_try (state reasons : pyval) : M (t * env W) pyval :=
  printer_state <- lift_res (int_dict_get printer_states state) ;;
  if py_eq reasons (VList [VStr "none"]) then ret printer_state
  else lift_res (py_add printer_state (VStr (format1 " - " reasons EmptyString))).

Definition status : M (t * env W) pyval :=
  self <- get_self ;;
  let output := VStr (default_message self) in
  v <- valid ;;
  if v then
    n <- name ;;
    a <- on_env (invoke (CallGetPrinterAttributes n) (getPrinterAttributes n)) ;;
    state <- lift_res (getitem (Some a) "printer-state") ;;
    n <- name ;;
    a <- on_env (invoke (CallGetPrinterAttributes n) (getPrinterAttributes n)) ;;
    reasons <- lift_res (getitem (Some a) "printer-state-reasons") ;;
    try_except (status_try state reasons) KeyError
      (fun _ => ret (VStr "Not detected."))
  else ret output.

Definition validate : M (t * env W) unit :=
  v <- valid ;;
  if negb v then
    self <- get_self ;;
    raise (mk_exn NotImplementedError [VStr (default_message self)])
  else ret tt.

Definition delete : M (t * env W) unit :=
  validate ;;;
  n <- name ;;
  on_env (invoke (CallDeletePrinter n) (deletePrinter n)).

Definition disable : M (t * env W) unit :=
  validate ;;;
  n <- name ;;
  on_env (invoke (CallDisablePrinter n) (disablePrinter n)).

Definition enable : M (t * env W) unit :=
  validate ;;;
  n <- name ;;
  on_env (invoke (CallEnablePrinter n) (enablePrinter n)).

Definition add : M (t * env W) unit := validate.

Definition print (filename title : string) (options : gmap string string)
  : M (t * env W) pyval :=
  validate ;;;
  n <- name ;;
  id <- on_env (invoke (CallPrintFile n filename title options)
                  (printFile n filename title options)) ;;
  modify_self (set_job_id (VInt id)) ;;;
  self <- get_self ;;
  ret (job_id self).

Definition export_ppd : M (t * env W) unit := validate.

End Methods.
End Printer.

(** ** [class Job] *)

Module Job.

(** [job_id] is bound by [__init__]; [attributes] is bound by the first
    [status] that gets past the library call ([None] until then). *)
Record t : Type := mk { job_id : pyval; attributes : option attrs }.

Definition set_job_id (v : pyval) (j : t) : t := mk v (attributes j).
Definition set_attributes (v : option attrs) (j : t) : t := mk (job_id j) v.

Definition unbound : t := mk VNone None.

Definition job_states : gmap Z string :=
  list_to_map [(3, "Pending"); (4, "Pending-held"); (5, "Processing");
               (6, "Processing-stopped"); (7, "Canceled"); (8, "Aborted");
               (9, "Completed")].

(** The local function of [Job.list]: the loop stops at the first
    character that is neither ['c'] nor ['0'] and converts the text from
    that character on. *)
Fixpoint job_number (filename : string) : res pyval :=
  match filename with
  | String char rest =>
      if negb (Ascii.eqb char "c" || Ascii.eqb char "0")
      then res_bind (py_int filename) (fun z => Ok (VInt z))
      else job_number rest
  | EmptyString => Ok VNone
  end.

(** The pattern ['c*']: a ['c'] followed by anything. *)
Definition matches_c_star (entry : string) : bool :=
  match entry with
  | String c _ => Ascii.eqb c "c"
  | EmptyString => false
  end.

(** [spooldir.glob('c*')]: the entries of the directory the pattern matches. *)
Definition glob_c (entries : list string) : list string :=
  filter (fun entry => matches_c_star entry = true) entries.

(** [__repr__] and [__str__]. *)
Definition repr (j : t) : string := format1 "Job: <" (job_id j) ">".
Definition str (j : t) : string := format1 EmptyString (job_id j) EmptyString.

Section Methods.
Context {W : Type} `{Library W}.

Definition init (id : pyval) : M (t * env W) unit :=
  BaseCUPS_init ;;;
  modify_self (set_job_id id).

(** [Job(job_id)]. *)
Definition new (id : pyval) : M (env W) t := construct unbound (init id).

(** The statements guarded by the second [try:] in [status]. *)
Definition status_try (state reasons : pyval) : M (t * env W) pyval :=
  job_state <- lift_res (int_dict_get job_states state) ;;
  if py_eq reasons (VList [VStr "none"]) then ret job_state
  else lift_res (py_add job_state (VStr (format1 " - " reasons EmptyString))).

Definition status : M (t * env W) pyval :=
  try_except
    (self <- get_self ;;
     a <- on_env (invoke (CallGetJobAttributes (job_id self))
                    (getJobAttributes (job_id self))) ;;
     modify_self (set_attributes (Some a)))
    IPPError
    (fun _ =>
       self <- get_self ;;
       raise (mk_exn JobNotFoundError
                [VStr (format1 "Job " (job_id self) " does not exist.")])) ;;;
  self <- get_self ;;
  state <- lift_res (getitem (attributes self) "job-state") ;;
  self <- get_self ;;
  reasons <- lift_res (getitem (attributes self) "job-state-reasons") ;;
  try_except (status_try state reasons) KeyError
    (fun _ => ret (VStr "Not detected.")).

Definition cancel : M (t * env W) unit :=
  try_except
    (self <- get_self ;;
     on_env (invoke (CallCancelJob (job_id self)) (cancelJob (job_id self))))
    IPPError
    (fun _ =>
       self <- get_self ;;
       raise (mk_exn JobCompletedError
                [VStr (format1 "Job " (job_id self) " has been completed.")])).

Definition restart : M (t * env W) unit :=
  try_except
    (self <- get_self ;;
     on_env (invoke (CallRestartJob (job_id self)) (restartJob (job_id self))))
    IPPError
    (fun _ =>
       self <- get_self ;;
       raise (mk_exn JobDocumentNotAvailableError
                [VStr (format1 "Job's " (job_id self) " document does not exist.")])).

(** [Job.list()] (a static method). *)
Definition list : M (env W) (Datatypes.list t) :=
  e <- get ;;
  comprehension
    (fun controlfile =>
       id <- lift_res (job_number controlfile) ;;
       new id)
    (glob_c (spool (world e))).

End Methods.
End Job.

(** ** [class CUPS] *)

Module CUPS.

Section Methods.
Context {W : Type} `{Library W}.

(** Reading a local variable: [UnboundLocalError] while it has no value. *)
Definition read_local (var : string) (value : option pyval) : M (env W) pyval :=
  match value with
  | Some v => ret v
  | None =>
      raise (mk_exn UnboundLocalError
               [VStr ("local variable '" +:+ var
                      +:+ "' referenced before assignment")])
  end.

Definition get_default : M (env W) (option Printer.t) :=
  default_printer <- invoke CallGetDefault getDefault ;;
  match default_printer with
  | Some n =>
      if py_truthy (VStr n)
      then p <- Printer.new n ;; ret (Some p)
      else ret None
  | None => ret None
  end.

Definition get_printers : M (env W) (list Printer.t) :=
  printers <- invoke CallGetPrinters getPrinters ;;
  comprehension Printer.new printers.

(** [def get_job_attributes(self)]: the signature has no parameter
    besides [self], so a call that passes anything is refused before the
    body runs; in the body [jobid] is a local that is read before it is
    ever assigned.  The interpreter's [TypeError] text depends on what was
    passed; only its opening words are kept here. *)
Definition get_job_attributes (args : list pyval) (kwargs : list (string * pyval))
  : M (env W) attrs :=
  match args, kwargs with
  | [], [] =>
      let jobid : option pyval := None in
      jobid <- try_except
                 (v <- read_local "jobid" jobid ;;
                  z <- lift_res (py_int_of v) ;;
                  ret (VInt z))
                 ValueError
                 (fun _ =>
                    raise (mk_exn ValueError
                             [VStr "Job id should be interger, str is given."])) ;;
      invoke (CallGetJobAttributes jobid) (getJobAttributes jobid)
  | _, _ =>
      raise (mk_exn TypeError
               [VStr "get_job_attributes() takes 1 positional argument"])
  end.

End Methods.
End CUPS.

(** ** A concrete print server

    A small simulated server behind the library, used to run the wrapper on
    concrete inputs. *)

Module Sample.

Record server : Type := mk_server {
  queues : list (string * attrs);
  default_queue : option string;
  jobs : gmap Z attrs;
  next_job : Z;
  entries : list string
}.

(** [cups.IPPError(status, description)]. *)
Definition ipp_error (status : Z) (description : string) : exn :=
  mk_exn IPPError [VInt status; VStr description].

Definition not_found : exn := ipp_error 1030 "client-error-not-found".
Definition not_possible : exn := ipp_error 1028 "client-error-not-possible".
Definition bad_argument : exn :=
  mk_exn TypeError [VStr "an integer is required"].

Definition queue (w : server) (n : string) : option attrs :=
  (list_to_map (queues w) : gmap string attrs) !! n.

Definition with_job (w : server) (id : pyval) {A}
    (k : Z -> attrs -> res A * server) : res A * server :=
  match id with
  | VInt z => match jobs w !! z with
              | Some a => k z a
              | None => (Raise not_found, w)
              end
  | _ => (Raise bad_argument, w)
  end.

Definition with_queue (w : server) (n : string)
    (k : attrs -> res unit * server) : res unit * server :=
  match queue w n with
  | Some a => k a
  | None => (Raise not_found, w)
  end.

Definition completed (a : attrs) : bool :=
  match a !! "job-state" with
  | Some v => py_eq v (VInt 9)
  | None => false
  end.

Definition set_jobs (js : gmap Z attrs) (w : server) : server :=
  mk_server (queues w) (default_queue w) js (next_job w) (entries w).

Definition set_queues (qs : list (string * attrs)) (w : server) : server :=
  mk_server qs (default_queue w) (jobs w) (next_job w) (entries w).

Definition update_queue (n : string) (f : attrs -> attrs) (w : server) : server :=
  set_queues
    (map (fun q => if String.eqb (fst q) n then (fst q, f (snd q)) else q) (queues w)) w.

#[global] Instance library : Library server := {|
  Connection w := (Ok tt, w);
  getDefault w := (Ok (default_queue w), w);
  getPrinters w := (Ok (map fst (queues w)), w);
  getPrinterAttributes n w :=
    match queue w n with
    | Some a => (Ok a, w)
    | None => (Raise not_found, w)
    end;
  getJobAttributes id w := with_job w id (fun _ a => (Ok a, w));
  cancelJob id w :=
    with_job w id (fun z a =>
      if completed a
      then (Raise not_possible, w)
      else (Ok tt, set_jobs (<[z := <["job-state" := VInt 7]> a]> (jobs w)) w));
  restartJob id w :=
    with_job w id (fun z a =>
      if completed a
      then (Raise not_possible, w)
      else (Ok tt, set_jobs (<[z := <["job-state" := VInt 3]> a]> (jobs w)) w));
  printFile n filename title options w :=
    match queue w n with
    | Some _ =>
        let a : attrs :=
          {[ "job-state" := VInt 3;
             "job-state-reasons" := VStr "none";
             "job-name" := VStr title ]} in
        (Ok (next_job w),
         mk_server (queues w) (default_queue w) (<[next_job w := a]> (jobs w))
           (next_job w + 1) (entries w))
    | None => (Raise not_found, w)
    end;
  deletePrinter n w :=
    with_queue w n (fun _ =>
      (Ok tt, set_queues (filter (fun q => fst q <> n) (queues w)) w));
  disablePrinter n w :=
    with_queue w n (fun _ =>
      (Ok tt, update_queue n (<["printer-state" := VInt 5]>) w));
  enablePrinter n w :=
    with_queue w n (fun _ =>
      (Ok tt, update_queue n (<["printer-state" := VInt 3]>) w));
  spool w := entries w
|}.

Definition laser : attrs :=
  {[ "device-uri" := VStr "ipp://10.0.0.7/ipp/print";
     "printer-location" := VStr "hall";
     "printer-state" := VInt 3;
     "printer-state-reasons" := VList [VStr "none"] ]}.

Definition inkjet : attrs :=
  {[ "device-uri" := VStr "usb://inkjet";
     "printer-location" := VStr "desk";
     "printer-state" := VInt 5;
     "printer-state-reasons" := VList [VStr "media-empty-error"; VStr "paused"] ]}.

(** A queue whose state code is outside the table of [Printer.status]. *)
Definition plotter : attrs :=
  {[ "device-uri" := VStr "serial:/dev/ttyS0";
     "printer-location" := VStr "lab";
     "printer-state" := VInt 6;
     "printer-state-reasons" := VList [VStr "none"] ]}.

Definition job12 : attrs :=
  {[ "job-state" := VInt 9; "job-state-reasons" := VList [VStr "none"] ]}.
Definition job13 : attrs :=
  {[ "job-state" := VInt 6;
     "job-state-reasons" := VList [VStr "printer-stopped"] ]}.
Definition job14 : attrs :=
  {[ "job-state" := VInt 2; "job-state-reasons" := VList [VStr "none"] ]}.

Definition office : server :=
  mk_server [("laser", laser); ("inkjet", inkjet); ("plotter", plotter)]
    (Some "laser")
    {[ 12 := job12; 13 := job13; 14 := job14 ]}
    15
    ["c00012"; "d00012-001"; "c00013"; "tmp"; "c00014"].

Definition start : env server := mk_env office [].

(** A [Printer] as [__init__] leaves it for a name the server lacks. *)
Definition ghost : Printer.t :=
  Printer.mk VNone None VNone VNone "Unable to locate the printer." "ghost".

(** A [Printer] as [__init__] leaves it for a queue of [office]. *)
Definition printer_of (n : string) (a : attrs) : Printer.t :=
  Printer.mk VNone (Some a)
    (default VNone (a !! "device-uri")) (default VNone (a !! "printer-location"))
    "Unable to locate the printer." n.

(** A queue that reports a state but neither a device URI nor a location,
    and one that reports a device URI only. *)
Definition bare : attrs :=
  {[ "printer-state" := VInt 3; "printer-state-reasons" := VList [VStr "none"] ]}.
Definition half : attrs :=
  {[ "device-uri" := VStr "lpd://half"; "printer-state" := VInt 4 ]}.

(** Jobs whose attribute dicts lack an entry, or pair an unknown state with
    reasons. *)
Definition job20 : attrs := {[ "job-state-reasons" := VList [VStr "none"] ]}.
Definition job21 : attrs := {[ "job-state" := VInt 5 ]}.
Definition job22 : attrs :=
  {[ "job-state" := VInt 2; "job-state-reasons" := VList [VStr "job-incoming"] ]}.

(** A server with such queues and jobs, and a spool directory holding an
    entry that matches ['c*'] without being a control file. *)
Definition workshop : server :=
  mk_server [("laser", laser); ("bare", bare); ("half", half)]
    None
    {[ 20 := job20; 21 := job21; 22 := job22 ]}
    23
    ["c00020"; "cups.log"; "c00021"].

Definition workshop_start : env server := mk_env workshop [].

(** A [Job] as [Job.list] builds it for an entry made of ['c'] and ['0']
    only: its id is [None], which the servers here refuse with [TypeError]. *)
Definition unnumbered : Job.t := Job.mk VNone None.

End Sample.

(** ** Vocabulary of the specification *)

(** The status strings as the specification lists them, code by code. *)
Definition claimed_job_state (code : Z) : option string :=
  match code with
  | 3 => Some "Pending"
  | 4 => Some "Pending-held"
  | 5 => Some "Processing"
  | 6 => Some "Processing-stopped"
  | 7 => Some "Canceled"
  | 8 => Some "Aborted"
  | 9 => Some "Completed"
  | _ => None
  end.

Definition claimed_printer_state (code : Z) : option string :=
  match code with
  | 3 => Some "Idle"
  | 4 => Some "Processing"
  | 5 => Some "Stopped"
  | _ => None
  end.

(** The reasons that leave the state string bare: the list [['none']]. *)
Definition only_none : pyval := VList [VStr "none"].

(** What the specification says [status] returns for a state string and the
    reasons reported with it. *)
Definition claimed_status (text : string) (reasons out : pyval) : Prop :=
  (reasons = only_none -> out = VStr text) /\
  (reasons <> only_none -> out = VStr (text +:+ " - " +:+ py_str reasons)).

(** A character of the leading run that [job_number] skips. *)
Definition c_or_0 (c : ascii) : bool := Ascii.eqb c "c" || Ascii.eqb c "0".

Fixpoint all_chars (P : ascii -> bool) (s : string) : bool :=
  match s with
  | String c s' => P c && all_chars P s'
  | EmptyString => true
  end.

(** A file name without its leading run of ['c'] and ['0'] characters. *)
Fixpoint drop_c0 (s : string) : string :=
  match s with
  | String c s' => if c_or_0 c then drop_c0 s' else s
  | EmptyString => EmptyString
  end.

(** The integer a string of decimal digits denotes. *)
Fixpoint decimal_from (acc : Z) (s : string) : Z :=
  match s with
  | String c s' => decimal_from (10 * acc + PyStr.digit_value c) s'
  | EmptyString => acc
  end.

Definition decimal_value (s : string) : Z := decimal_from 0 s.

(** A server at rest in state [w] with queues [ps]: opening a connection and
    listing or describing the queues succeed and leave [w] as it is, and
    every listed queue reports a device URI and a location. *)
Definition at_rest {W : Type} `{Library W} (w : W) (ps : list string) : Prop :=
  Connection w = (Ok tt, w) /\
  getPrinters w = (Ok ps, w) /\
  forall n, n ∈ ps ->
    exists a, getPrinterAttributes n w = (Ok a, w)
              /\ is_Some (a !! "device-uri") /\ is_Some (a !! "printer-location").

(** [k] zeros, the padding of a control-file name. *)
Fixpoint zeros (k : nat) : string :=
  match k with
  | O => EmptyString
  | S k' => String "0" (zeros k')
  end.

(** The cached URI and location of a [Printer] agree with its cached dict:
    they are the dict's ['device-uri'] and ['printer-location'] entries, or
    [None] while no dict is cached. *)
Definition coherent (p : Printer.t) : Prop :=
  match Printer.attributes p with
  | Some a =>
      a !! "device-uri" = Some (Printer.device_uri p)
      /\ a !! "printer-location" = Some (Printer.location p)
  | None => Printer.device_uri p = VNone /\ Printer.location p = VNone
  end.

(** The library calls that [Printer(n)] makes for a listed queue [n]. *)
Definition construction_calls (n : string) : list call :=
  [CallConnection; CallGetPrinters; CallGetPrinterAttributes n].

(** A run ends by raising an exception of class [c]. *)
Definition raises {St A : Type} (out : res A * St) (c : exc_class) : Prop :=
  exists x s, out = (Raise x, s) /\ exn_class x = c.

(** A library call ends by raising [cups.IPPError] (or a subclass of it). *)
Definition ipp_raised {St A : Type} (out : res A * St) : Prop :=
  exists x s, out = (Raise x, s) /\ caught_by IPPError x = true.

(** The exception a [Job] method raises in place of a library error [x]:
    [relabelled] when [x] is an [IPPError], [x] itself otherwise. *)
Definition relabel (relabelled x : exn) : exn :=
  if caught_by IPPError x then relabelled else x.

Definition job_not_found (j : Job.t) : exn :=
  mk_exn JobNotFoundError [VStr (format1 "Job " (Job.job_id j) " does not exist.")].
Definition job_completed (j : Job.t) : exn :=
  mk_exn JobCompletedError [VStr (format1 "Job " (Job.job_id j) " has been completed.")].
Definition job_document_missing (j : Job.t) : exn :=
  mk_exn JobDocumentNotAvailableError
    [VStr (format1 "Job's " (Job.job_id j) " document does not exist.")].

(** The value of either [status] once the state and the reasons are read. *)
Definition describe (table : gmap Z string) (state reasons : pyval) : res pyval :=
  res_bind (int_dict_get table state)
    (fun st => if py_eq reasons only_none then Ok st
               else py_add st (VStr (format1 " - " reasons EmptyString))).

(** ** Basic facts about the built-in operations *)

Lemma bind_Ok {St A B : Type} (m : M St A) (k : A -> M St B) (s s' : St) (a : A) :
  m s = (Ok a, s') -> bind m k s = k a s'.
Proof. intros Hm. unfold bind. now rewrite Hm. Qed.

Lemma bind_Raise {St A B : Type} (m : M St A) (k : A -> M St B) (s s' : St) (x : exn) :
  m s = (Raise x, s') -> bind m k s = (Raise x, s').
Proof. intros Hm. unfold bind. now rewrite Hm. Qed.

Lemma append_empty (s : string) : s +:+ EmptyString = s.
Proof. induction s as [|c s IH]; [reflexivity|]. change (String c (s +:+ EmptyString) = String c s). now rewrite IH. Qed.

Lemma py_eq_only_none (v : pyval) : py_eq v only_none = true <-> v = only_none.
Proof.
  unfold only_none. split.
  - destruct v as [| | |s|l]; simpl; try discriminate.
    destruct l as [|x [|y l]]; try discriminate.
    + destruct x; simpl; try discriminate.
      rewrite andb_true_r. intros E. apply String.eqb_eq in E. now subst.
    + destruct x; simpl; try discriminate.
      rewrite andb_false_r. discriminate.
  - intros ->. reflexivity.
Qed.

Lemma py_eq_only_none_false (v : pyval) : v <> only_none -> py_eq v only_none = false.
Proof.
  intros Hne. destruct (py_eq v only_none) eqn:E; [|reflexivity].
  apply py_eq_only_none in E. contradiction.
Qed.

Lemma job_states_claimed (code : Z) (text : string) :
  claimed_job_state code = Some text -> Job.job_states !! code = Some text.
Proof.
  unfold claimed_job_state. intros Hc.
  destruct code as [|p|p]; try discriminate.
  repeat (destruct p as [p|p|]; try discriminate); inversion Hc; reflexivity.
Qed.

Lemma printer_states_claimed (code : Z) (text : string) :
  claimed_printer_state code = Some text -> Printer.printer_states !! code = Some text.
Proof.
  unfold claimed_printer_state. intros Hc.
  destruct code as [|p|p]; try discriminate.
  repeat (destruct p as [p|p|]; try discriminate); inversion Hc; reflexivity.
Qed.

Lemma job_states_unclaimed (code : Z) :
  claimed_job_state code = None -> Job.job_states !! code = None.
Proof.
  unfold claimed_job_state. intros Hc.
  destruct code as [|p|p]; try reflexivity.
  repeat (destruct p as [p|p|]; try discriminate; try reflexivity).
Qed.

Lemma printer_states_unclaimed (code : Z) :
  claimed_printer_state code = None -> Printer.printer_states !! code = None.
Proof.
  unfold claimed_printer_state. intros Hc.
  destruct code as [|p|p]; try reflexivity.
  repeat (destruct p as [p|p|]; try discriminate; try reflexivity).
Qed.

(** The guarded block of either [status], for a state the table knows. *)
Lemma known_state_text (table : gmap Z string) (code : Z) (text : string)
    (reasons : pyval) :
  table !! code = Some text ->
  exists out,
    res_bind (int_dict_get table (VInt code))
      (fun st => if py_eq reasons only_none then Ok st
                 else py_add st (VStr (format1 " - " reasons EmptyString)))
    = Ok out
    /\ claimed_status text reasons out.
Proof.
  intros Hl. unfold int_dict_get, as_number. rewrite Hl. simpl.
  destruct (py_eq reasons only_none) eqn:E.
  - exists (VStr text). split; [reflexivity|].
    apply py_eq_only_none in E. split; [reflexivity | contradiction].
  - eexists. split; [reflexivity|]. unfold format1. rewrite append_empty.
    split; [|reflexivity].
    intros ->. now rewrite (proj2 (py_eq_only_none _) eq_refl) in E.
Qed.

Lemma digit_not_space (c : ascii) : PyStr.is_digit c = true -> PyStr.is_space c = false.
Proof.
  unfold PyStr.is_digit, PyStr.is_space. intros Hd.
  apply andb_true_iff in Hd as [Hlo Hhi].
  apply Z.leb_le in Hlo. apply Z.leb_le in Hhi.
  repeat (apply orb_false_iff; split);
    try (apply andb_false_iff; right; apply Z.leb_gt; lia);
    apply Z.eqb_neq; lia.
Qed.

Lemma digit_not_char (c d : ascii) :
  PyStr.is_digit c = true -> PyStr.is_digit d = false -> Ascii.eqb c d = false.
Proof.
  intros Hc Hd. destruct (Ascii.eqb_spec c d) as [->|]; [congruence | reflexivity].
Qed.

Lemma scan_all_digits (s : string) (acc : Z) :
  all_chars PyStr.is_digit s = true ->
  PyInt.scan_digits false acc s = Some (decimal_from acc s, EmptyString).
Proof.
  revert acc. induction s as [|c s IH]; intros acc Hall; simpl in *.
  - reflexivity.
  - apply andb_true_iff in Hall as [Hc Hs]. rewrite Hc. now apply IH.
Qed.

(** [int] of a non-empty run of decimal digits is the number it denotes. *)
Lemma py_int_digits (s : string) :
  s <> EmptyString -> all_chars PyStr.is_digit s = true ->
  py_int s = Ok (decimal_value s).
Proof.
  destruct s as [|c s]; [congruence|]. intros _ Hall. simpl in Hall.
  apply andb_true_iff in Hall as [Hc Hs].
  unfold py_int, PyInt.parse. simpl. rewrite (digit_not_space c Hc).
  unfold PyInt.scan_signed, PyInt.scan_number.
  rewrite (digit_not_char c "-" Hc eq_refl), (digit_not_char c "+" Hc eq_refl), Hc.
  rewrite (scan_all_digits s _ Hs). reflexivity.
Qed.

Lemma job_number_drop (filename : string) :
  Job.job_number filename =
  match drop_c0 filename with
  | EmptyString => Ok VNone
  | suffix => res_bind (py_int suffix) (fun z => Ok (VInt z))
  end.
Proof.
  induction filename as [|c s IH]; simpl; [reflexivity|].
  fold (c_or_0 c). destruct (c_or_0 c); simpl; [exact IH | reflexivity].
Qed.

Lemma drop_c0_all (filename : string) :
  all_chars c_or_0 filename = true -> drop_c0 filename = EmptyString.
Proof.
  induction filename as [|c s IH]; simpl; [reflexivity|].
  intros Hall. apply andb_true_iff in Hall as [-> Hs]. now apply IH.
Qed.

Lemma glob_c_spec (entries : list string) (n : string) :
  n ∈ Job.glob_c entries <-> n ∈ entries /\ exists rest, n = String "c" rest.
Proof.
  unfold Job.glob_c. rewrite list_elem_of_filter. split.
  - intros [Hp Hin]. split; [exact Hin|].
    destruct n as [|c rest]; simpl in Hp; [discriminate|].
    apply Ascii.eqb_eq in Hp as ->. now exists rest.
  - intros [Hin [rest ->]]. split; [reflexivity | exact Hin].
Qed.

(** The guarded block of either [status] can only fail with [TypeError]. *)
Lemma guarded_block_raises (table : gmap Z string) (state reasons : pyval) (x : exn) :
  res_bind (int_dict_get table state)
    (fun st => if py_eq reasons only_none then Ok st
               else py_add st (VStr (format1 " - " reasons EmptyString)))
  = Raise x ->
  exn_class x = TypeError.
Proof.
  unfold int_dict_get.
  destruct state as [| b | z | s | l]; simpl;
    try (destruct (table !! _); simpl);
    destruct (py_eq reasons only_none); simpl;
    intros Hx; inversion Hx; reflexivity.
Qed.

Section Properties.
Context {W : Type} `{Library W}.

Lemma job_status_try_eq (state reasons : pyval) (s : Job.t * env W) :
  Job.status_try state reasons s =
  (res_bind (int_dict_get Job.job_states state)
     (fun st => if py_eq reasons only_none then Ok st
                else py_add st (VStr (format1 " - " reasons EmptyString))), s).
Proof.
  unfold Job.status_try, bind, lift_res, ret, only_none.
  destruct (int_dict_get Job.job_states state); simpl; [|reflexivity].
  destruct (py_eq reasons _); reflexivity.
Qed.

Lemma printer_status_try_eq (state reasons : pyval) (s : Printer.t * env W) :
  Printer.status_try state reasons s =
  (res_bind (int_dict_get Printer.printer_states state)
     (fun st => if py_eq reasons only_none then Ok st
                else py_add st (VStr (format1 " - " reasons EmptyString))), s).
Proof.
  unfold Printer.status_try, bind, lift_res, ret, only_none.
  destruct (int_dict_get Printer.printer_states state); simpl; [|reflexivity].
  destruct (py_eq reasons _); reflexivity.
Qed.

(** C1. Status-code translation: a job whose ['job-state'] is one of the
    codes 3..9 gets the string the specification lists for it, a printer
    in the printer list whose ['printer-state'] is one of 3..5 likewise;
    reasons other than [['none']] are appended after [" - "]. *)
Theorem status_translation :
  (forall (j : Job.t) (e : env W) (a : attrs) (w' : W) (code : Z)
          (text : string) (reasons : pyval),
      getJobAttributes (Job.job_id j) (world e) = (Ok a, w') ->
      a !! "job-state" = Some (VInt code) ->
      claimed_job_state code = Some text ->
      a !! "job-state-reasons" = Some reasons ->
      exists out,
        Job.status (j, e)
        = (Ok out,
           (Job.set_attributes (Some a) j,
            mk_env w' (calls e ++ [CallGetJobAttributes (Job.job_id j)])))
        /\ claimed_status text reasons out)
  /\
  (forall (p : Printer.t) (e : env W) (ps : list string) (a1 a2 : attrs)
          (w1 w2 w3 : W) (code : Z) (text : string) (reasons : pyval),
      getPrinters (world e) = (Ok ps, w1) ->
      Printer._name p ∈ ps ->
      getPrinterAttributes (Printer._name p) w1 = (Ok a1, w2) ->
      getPrinterAttributes (Printer._name p) w2 = (Ok a2, w3) ->
      a1 !! "printer-state" = Some (VInt code) ->
      claimed_printer_state code = Some text ->
      a2 !! "printer-state-reasons" = Some reasons ->
      exists out,
        Printer.status (p, e)
        = (Ok out,
           (p, mk_env w3 (calls e ++ [CallGetPrinters;
                                      CallGetPrinterAttributes (Printer._name p);
                                      CallGetPrinterAttributes (Printer._name p)])))
        /\ claimed_status text reasons out).
Proof.
  split.
  - intros j e a w' code text reasons Hlib Hstate Hcode Hreasons.
    destruct (known_state_text Job.job_states code text reasons
                (job_states_claimed _ _ Hcode)) as (out & Hout & Hclaim).
    exists out. split; [|exact Hclaim].
    unfold Job.status, try_except, bind, get_self, on_env, invoke, modify_self,
      lift_res, getitem. simpl. rewrite Hlib. simpl.
    rewrite Hstate, Hreasons. rewrite job_status_try_eq, Hout. reflexivity.
  - intros p e ps a1 a2 w1 w2 w3 code text reasons Hps Hin Ha1 Ha2 Hstate Hcode Hreasons.
    destruct (known_state_text Printer.printer_states code text reasons
                (printer_states_claimed _ _ Hcode)) as (out & Hout & Hclaim).
    exists out. split; [|exact Hclaim].
    unfold Printer.status, Printer.valid, Printer.name, try_except, bind, get_self,
      on_env, invoke, lift_res, getitem, ret. simpl. rewrite Hps. simpl.
    rewrite (bool_decide_eq_true_2 _ Hin). simpl. rewrite Ha1. simpl.
    rewrite Hstate. rewrite Ha2. simpl. rewrite Hreasons.
    rewrite printer_status_try_eq, Hout. rewrite <- !app_assoc. reflexivity.
Qed.

Lemma job_new_ok (id : pyval) (e : env W) (w' : W) :
  Connection (world e) = (Ok tt, w') ->
  Job.new id e = (Ok (Job.mk id None), mk_env w' (calls e ++ [CallConnection])).
Proof.
  intros Hc. unfold Job.new, construct, Job.init, BaseCUPS_init, bind, on_env,
    invoke, modify_self. simpl. rewrite Hc. reflexivity.
Qed.

Lemma job_list_comprehension (names : list string) :
  forall (ids : list pyval) (w : W) (cs : list call),
    Connection w = (Ok tt, w) ->
    Forall2 (fun n id => Job.job_number n = Ok id) names ids ->
    comprehension
      (fun controlfile =>
         id <- lift_res (Job.job_number controlfile) ;; Job.new id)
      names (mk_env w cs)
    = (Ok (map (fun id => Job.mk id None) ids),
       mk_env w (cs ++ repeat CallConnection (length ids))).
Proof.
  induction names as [|n names IH]; intros ids w cs Hc Hall.
  - inversion Hall; subst. simpl. unfold ret. now rewrite app_nil_r.
  - inversion Hall as [|n' id names' ids' Hn Hrest]; subst.
    cbn [comprehension].
    erewrite bind_Ok;
      [|erewrite bind_Ok;
        [apply (job_new_ok id (mk_env w cs) w Hc)
        |unfold lift_res; now rewrite Hn]].
    erewrite bind_Ok; [|apply (IH ids' w (cs ++ [CallConnection]) Hc Hrest)].
    unfold ret. cbn [map length repeat]. rewrite <- app_assoc. reflexivity.
Qed.

(** C2. File-name parsing: [job_number] drops the leading run of ['c'] and
    ['0'] characters and converts all of what is left with [int]: a run of
    decimal digits gives the number it denotes (['c00123'] gives 123), and
    a name made of ['c'] and ['0'] only gives [None]; [Job.list] builds
    one [Job] per spool entry whose name starts with ['c'], in order,
    holding the number extracted from that name. *)
Theorem control_file_parsing :
  (forall filename : string,
      Job.job_number filename =
      match drop_c0 filename with
      | EmptyString => Ok VNone
      | suffix => res_bind (py_int suffix) (fun z => Ok (VInt z))
      end)
  /\
  (forall filename : string,
      drop_c0 filename <> EmptyString ->
      all_chars PyStr.is_digit (drop_c0 filename) = true ->
      Job.job_number filename = Ok (VInt (decimal_value (drop_c0 filename))))
  /\
  Job.job_number "c00123" = Ok (VInt 123)
  /\
  (forall filename : string,
      all_chars c_or_0 filename = true -> Job.job_number filename = Ok VNone)
  /\
  (forall (e : env W) (ids : list pyval),
      Connection (world e) = (Ok tt, world e) ->
      Forall2 (fun n id => Job.job_number n = Ok id)
        (Job.glob_c (spool (world e))) ids ->
      Job.list e =
      (Ok (map (fun id => Job.mk id None) ids),
       mk_env (world e) (calls e ++ repeat CallConnection (length ids))))
  /\
  (forall (entries : list string) (n : string),
      n ∈ Job.glob_c entries <-> n ∈ entries /\ exists rest, n = String "c" rest).
Proof.
  split; [exact job_number_drop|].
  split.
  { intros filename Hne Hdig. rewrite job_number_drop.
    pose proof (py_int_digits _ Hne Hdig) as Hint.
    destruct (drop_c0 filename); [congruence|]. now rewrite Hint. }
  split; [reflexivity|].
  split.
  { intros filename Hall. rewrite job_number_drop.
    now rewrite (drop_c0_all _ Hall). }
  split; [|exact glob_c_spec].
  intros [w cs] ids Hc Hall. unfold Job.list, bind at 1, get.
  cbn [world calls] in *. now apply job_list_comprehension.
Qed.

(** C3. Error re-labelling: [Job.status] raises [JobNotFoundError],
    [Job.cancel] raises [JobCompletedError] and [Job.restart] raises
    [JobDocumentNotAvailableError] exactly when the library call each of
    them makes raises [IPPError]; the exception raised holds one argument,
    a message built from the job id, and the job is left as it was. *)
Theorem error_relabelling :
  (forall (j : Job.t) (e : env W),
      (raises (Job.status (j, e)) JobNotFoundError
       <-> ipp_raised (getJobAttributes (Job.job_id j) (world e)))
      /\
      (raises (Job.cancel (j, e)) JobCompletedError
       <-> ipp_raised (cancelJob (Job.job_id j) (world e)))
      /\
      (raises (Job.restart (j, e)) JobDocumentNotAvailableError
       <-> ipp_raised (restartJob (Job.job_id j) (world e))))
  /\
  (forall (j : Job.t) (e : env W) (x : exn) (s : Job.t * env W),
      (Job.status (j, e) = (Raise x, s) ->
       exn_class x = JobNotFoundError ->
       x = mk_exn JobNotFoundError
             [VStr ("Job " +:+ py_str (Job.job_id j) +:+ " does not exist.")]
       /\ fst s = j)
      /\
      (Job.cancel (j, e) = (Raise x, s) ->
       exn_class x = JobCompletedError ->
       x = mk_exn JobCompletedError
             [VStr ("Job " +:+ py_str (Job.job_id j) +:+ " has been completed.")]
       /\ fst s = j)
      /\
      (Job.restart (j, e) = (Raise x, s) ->
       exn_class x = JobDocumentNotAvailableError ->
       x = mk_exn JobDocumentNotAvailableError
             [VStr ("Job's " +:+ py_str (Job.job_id j) +:+ " document does not exist.")]
       /\ fst s = j)).
Proof.
  assert (Hstatus : forall (j : Job.t) (e : env W) (x : exn) (s : Job.t * env W),
             Job.status (j, e) = (Raise x, s) ->
             exn_class x = JobNotFoundError ->
             ipp_raised (getJobAttributes (Job.job_id j) (world e))
             /\ x = mk_exn JobNotFoundError
                      [VStr (format1 "Job " (Job.job_id j) " does not exist.")]
             /\ fst s = j).
  { intros j e x s. unfold Job.status, try_except at 1, bind, get_self, on_env,
      invoke, modify_self, lift_res, raise. simpl.
    destruct (getJobAttributes (Job.job_id j) (world e)) as [[a|x0] w'] eqn:Hlib; simpl.
    - unfold getitem.
      destruct (a !! "job-state") as [state|]; simpl;
        [|intros Hx Hc; inversion Hx; subst; discriminate].
      destruct (a !! "job-state-reasons") as [reasons|]; simpl;
        [|intros Hx Hc; inversion Hx; subst; discriminate].
      unfold try_except. rewrite job_status_try_eq.
      destruct (res_bind _ _) as [out|x1] eqn:Hblock; [discriminate|].
      apply guarded_block_raises in Hblock. unfold caught_by. rewrite Hblock.
      simpl. intros Hx Hc. inversion Hx; subst. congruence.
    - destruct (caught_by IPPError x0) eqn:Hcaught; simpl.
      + intros Hx _. inversion Hx; subst.
        split; [now exists x0, w' | split; reflexivity].
      + intros Hx Hc. inversion Hx; subst. unfold caught_by in Hcaught.
        rewrite Hc in Hcaught. discriminate. }
  assert (Hcancel : forall (j : Job.t) (e : env W) (x : exn) (s : Job.t * env W),
             Job.cancel (j, e) = (Raise x, s) ->
             exn_class x = JobCompletedError ->
             ipp_raised (cancelJob (Job.job_id j) (world e))
             /\ x = mk_exn JobCompletedError
                      [VStr (format1 "Job " (Job.job_id j) " has been completed.")]
             /\ fst s = j).
  { intros j e x s. unfold Job.cancel, try_except, bind, get_self, on_env,
      invoke, raise. simpl.
    destruct (cancelJob (Job.job_id j) (world e)) as [[u|x0] w'] eqn:Hlib; simpl;
      [discriminate|].
    destruct (caught_by IPPError x0) eqn:Hcaught; simpl.
    - intros Hx _. inversion Hx; subst.
      split; [now exists x0, w' | split; reflexivity].
    - intros Hx Hc. inversion Hx; subst. unfold caught_by in Hcaught.
      rewrite Hc in Hcaught. discriminate. }
  assert (Hrestart : forall (j : Job.t) (e : env W) (x : exn) (s : Job.t * env W),
             Job.restart (j, e) = (Raise x, s) ->
             exn_class x = JobDocumentNotAvailableError ->
             ipp_raised (restartJob (Job.job_id j) (world e))
             /\ x = mk_exn JobDocumentNotAvailableError
                      [VStr (format1 "Job's " (Job.job_id j) " document does not exist.")]
             /\ fst s = j).
  { intros j e x s. unfold Job.restart, try_except, bind, get_self, on_env,
      invoke, raise. simpl.
    destruct (restartJob (Job.job_id j) (world e)) as [[u|x0] w'] eqn:Hlib; simpl;
      [discriminate|].
    destruct (caught_by IPPError x0) eqn:Hcaught; simpl.
    - intros Hx _. inversion Hx; subst.
      split; [now exists x0, w' | split; reflexivity].
    - intros Hx Hc. inversion Hx; subst. unfold caught_by in Hcaught.
      rewrite Hc in Hcaught. discriminate. }
  split.
  - intros j e. repeat split.
    + intros (x & s & Hx & Hc). exact (proj1 (Hstatus j e x s Hx Hc)).
    + intros (x0 & w' & Hlib & Hcaught).
      unfold raises, Job.status, try_except at 1, bind, get_self, on_env, invoke,
        raise. simpl. rewrite Hlib. simpl. rewrite Hcaught. simpl.
      eexists _, _. split; reflexivity.
    + intros (x & s & Hx & Hc). exact (proj1 (Hcancel j e x s Hx Hc)).
    + intros (x0 & w' & Hlib & Hcaught).
      unfold raises, Job.cancel, try_except, bind, get_self, on_env, invoke,
        raise. simpl. rewrite Hlib. simpl. rewrite Hcaught. simpl.
      eexists _, _. split; reflexivity.
    + intros (x & s & Hx & Hc). exact (proj1 (Hrestart j e x s Hx Hc)).
    + intros (x0 & w' & Hlib & Hcaught).
      unfold raises, Job.restart, try_except, bind, get_self, on_env, invoke,
        raise. simpl. rewrite Hlib. simpl. rewrite Hcaught. simpl.
      eexists _, _. split; reflexivity.
  - intros j e x s. split; [|split]; intros Hx Hc.
    + exact (proj2 (Hstatus j e x s Hx Hc)).
    + exact (proj2 (Hcancel j e x s Hx Hc)).
    + exact (proj2 (Hrestart j e x s Hx Hc)).
Qed.

(** *** The validity check *)

Lemma valid_run (p : Printer.t) (e : env W) (ps : list string) (w1 : W) :
  getPrinters (world e) = (Ok ps, w1) ->
  Printer.valid (p, e)
  = (Ok (bool_decide (Printer._name p ∈ ps)),
     (p, mk_env w1 (calls e ++ [CallGetPrinters]))).
Proof.
  intros Hps. unfold Printer.valid, Printer.name, bind, get_self, on_env, invoke, ret.
  simpl. rewrite Hps. simpl. now destruct (bool_decide _).
Qed.

Lemma validate_pass (p : Printer.t) (e : env W) (ps : list string) (w1 : W) :
  getPrinters (world e) = (Ok ps, w1) ->
  Printer._name p ∈ ps ->
  Printer.validate (p, e) = (Ok tt, (p, mk_env w1 (calls e ++ [CallGetPrinters]))).
Proof.
  intros Hps Hin. unfold Printer.validate.
  erewrite bind_Ok; [|apply (valid_run _ _ _ _ Hps)].
  now rewrite (bool_decide_eq_true_2 _ Hin).
Qed.

Lemma validate_fail (p : Printer.t) (e : env W) (ps : list string) (w1 : W) :
  getPrinters (world e) = (Ok ps, w1) ->
  Printer._name p ∉ ps ->
  Printer.validate (p, e)
  = (Raise (mk_exn NotImplementedError [VStr (Printer.default_message p)]),
     (p, mk_env w1 (calls e ++ [CallGetPrinters]))).
Proof.
  intros Hps Hout. unfold Printer.validate.
  erewrite bind_Ok; [|apply (valid_run _ _ _ _ Hps)].
  now rewrite (bool_decide_eq_false_2 _ Hout).
Qed.

(** C4. Printer-not-found re-labelling, as the code has it: for a name
    that is not in the printer list, [validate] and each operation that
    starts with it ([delete], [disable], [enable], [add], [print],
    [export_ppd]) raise [NotImplementedError] holding the default message;
    that exception is not a [PrinterNotFoundError]. *)
Theorem unknown_printer_raises_NotImplementedError :
  forall (p : Printer.t) (e : env W) (ps : list string) (w1 : W),
    getPrinters (world e) = (Ok ps, w1) ->
    Printer._name p ∉ ps ->
    let x := mk_exn NotImplementedError [VStr (Printer.default_message p)] in
    let after := (p, mk_env w1 (calls e ++ [CallGetPrinters])) in
    Printer.validate (p, e) = (Raise x, after)
    /\ Printer.delete (p, e) = (Raise x, after)
    /\ Printer.disable (p, e) = (Raise x, after)
    /\ Printer.enable (p, e) = (Raise x, after)
    /\ Printer.add (p, e) = (Raise x, after)
    /\ (forall filename title options,
          Printer.print filename title options (p, e) = (Raise x, after))
    /\ Printer.export_ppd (p, e) = (Raise x, after)
    /\ caught_by PrinterNotFoundError x = false.
Proof.
  intros p e ps w1 Hps Hout x after.
  pose proof (validate_fail p e ps w1 Hps Hout) as Hv.
  repeat split; try exact Hv;
    try (intros; unfold Printer.delete, Printer.disable, Printer.enable, Printer.print;
         now apply bind_Raise).
Qed.

(** C5. [CUPS.get_job_attributes], as the code has it: whatever is passed,
    the call raises [TypeError] (an argument was given) or
    [UnboundLocalError] (none was given) and never reaches the library. *)
Theorem get_job_attributes_never_delegates :
  forall (args : list pyval) (kwargs : list (string * pyval)) (e : env W),
  exists x,
    CUPS.get_job_attributes args kwargs e = (Raise x, e)
    /\ exn_class x =
       match args, kwargs with
       | [], [] => UnboundLocalError
       | _, _ => TypeError
       end.
Proof.
  intros args kwargs e. unfold CUPS.get_job_attributes.
  destruct args as [|v args]; [destruct kwargs as [|kv kwargs]|];
    eexists; split; reflexivity.
Qed.

(** *** Construction and renaming of a [Printer] *)

Lemma name_setter_listed (p : Printer.t) (e : env W) (n : string)
    (ps : list string) (a : attrs) (uri loc : pyval) (w1 w2 : W) :
  getPrinters (world e) = (Ok ps, w1) ->
  n ∈ ps ->
  getPrinterAttributes n w1 = (Ok a, w2) ->
  a !! "device-uri" = Some uri ->
  a !! "printer-location" = Some loc ->
  Printer.name_setter n (p, e)
  = (Ok tt,
     (Printer.mk (Printer.job_id p) (Some a) uri loc (Printer.default_message p) n,
      mk_env w2 (calls e ++ [CallGetPrinters; CallGetPrinterAttributes n]))).
Proof.
  intros Hps Hin Ha Huri Hloc. unfold Printer.name_setter.
  erewrite bind_Ok; [|reflexivity].
  erewrite bind_Ok; [|apply (valid_run _ _ _ _ Hps)].
  cbn [Printer.set__name Printer._name fst].
  rewrite (bool_decide_eq_true_2 _ Hin).
  unfold bind, Printer.name, get_self, on_env, invoke, modify_self, lift_res, getitem, ret.
  simpl. rewrite Ha. simpl. rewrite Huri, Hloc. rewrite <- app_assoc. reflexivity.
Qed.

Lemma name_setter_unlisted (p : Printer.t) (e : env W) (n : string)
    (ps : list string) (w1 : W) :
  getPrinters (world e) = (Ok ps, w1) ->
  n ∉ ps ->
  Printer.name_setter n (p, e)
  = (Ok tt, (Printer.set__name n p, mk_env w1 (calls e ++ [CallGetPrinters]))).
Proof.
  intros Hps Hout. unfold Printer.name_setter.
  erewrite bind_Ok; [|reflexivity].
  erewrite bind_Ok; [|apply (valid_run _ _ _ _ Hps)].
  cbn [Printer.set__name Printer._name fst].
  now rewrite (bool_decide_eq_false_2 _ Hout).
Qed.

(** [__init__] up to the assignment of [name]. *)
Lemma init_run (n : string) (e : env W) (w1 : W) :
  Connection (world e) = (Ok tt, w1) ->
  Printer.init n (Printer.unbound, e)
  = Printer.name_setter n
      (Printer.mk VNone None VNone VNone "Unable to locate the printer." EmptyString,
       mk_env w1 (calls e ++ [CallConnection])).
Proof.
  intros Hc. unfold Printer.init, BaseCUPS_init.
  erewrite bind_Ok; [|unfold on_env, invoke; simpl; rewrite Hc; reflexivity].
  reflexivity.
Qed.

Lemma new_listed (n : string) (e : env W) (ps : list string) (a : attrs)
    (uri loc : pyval) (w1 w2 w3 : W) :
  Connection (world e) = (Ok tt, w1) ->
  getPrinters w1 = (Ok ps, w2) ->
  n ∈ ps ->
  getPrinterAttributes n w2 = (Ok a, w3) ->
  a !! "device-uri" = Some uri ->
  a !! "printer-location" = Some loc ->
  Printer.new n e
  = (Ok (Printer.mk VNone (Some a) uri loc "Unable to locate the printer." n),
     mk_env w3 (calls e ++ [CallConnection; CallGetPrinters;
                            CallGetPrinterAttributes n])).
Proof.
  intros Hc Hps Hin Ha Huri Hloc. unfold Printer.new, construct.
  rewrite (init_run n e w1 Hc).
  erewrite name_setter_listed; [|exact Hps|exact Hin|exact Ha|exact Huri|exact Hloc].
  cbn [calls Printer.job_id Printer.default_message]. now rewrite <- app_assoc.
Qed.

Lemma new_unlisted (n : string) (e : env W) (ps : list string) (w1 w2 : W) :
  Connection (world e) = (Ok tt, w1) ->
  getPrinters w1 = (Ok ps, w2) ->
  n ∉ ps ->
  Printer.new n e
  = (Ok (Printer.mk VNone None VNone VNone "Unable to locate the printer." n),
     mk_env w2 (calls e ++ [CallConnection; CallGetPrinters])).
Proof.
  intros Hc Hps Hout. unfold Printer.new, construct.
  rewrite (init_run n e w1 Hc).
  erewrite name_setter_unlisted; [|exact Hps|exact Hout].
  cbn [calls Printer.set__name]. now rewrite <- app_assoc.
Qed.

(** Whatever the library does, a [Printer] that [Printer(name)] returns
    bears that name. *)
Lemma new_name (n : string) (e e' : env W) (p : Printer.t) :
  Printer.new n e = (Ok p, e') -> Printer._name p = n.
Proof.
  unfold Printer.new, construct, Printer.init, Printer.name_setter, Printer.valid,
    Printer.name, BaseCUPS_init, bind, get_self, on_env, invoke, modify_self,
    lift_res, getitem, ret. simpl.
  destruct (Connection (world e)) as [[u|x] w1]; simpl; [|discriminate].
  destruct (getPrinters w1) as [[ps|x] w2]; simpl; [|discriminate].
  destruct (bool_decide (n ∈ ps)); simpl; [|intros Hp; now inversion Hp].
  destruct (getPrinterAttributes n w2) as [[a|x] w3]; simpl; [|discriminate].
  destruct (a !! "device-uri"); simpl; [|discriminate].
  destruct (a !! "printer-location"); simpl; [|discriminate].
  intros Hp; now inversion Hp.
Qed.

Lemma new_at_rest (w : W) (ps : list string) (n : string) (cs : list call) :
  at_rest w ps ->
  exists p cs', Printer.new n (mk_env w cs) = (Ok p, mk_env w cs')
                /\ Printer._name p = n.
Proof.
  intros (Hc & Hps & Hattrs).
  destruct (decide (n ∈ ps)) as [Hin|Hout].
  - destruct (Hattrs n Hin) as (a & Ha & [uri Huri] & [loc Hloc]).
    eexists _, _. split;
      [exact (new_listed n (mk_env w cs) ps a uri loc w w w Hc Hps Hin Ha Huri Hloc)
      |reflexivity].
  - eexists _, _. split;
      [exact (new_unlisted n (mk_env w cs) ps w w Hc Hps Hout) | reflexivity].
Qed.

Lemma comprehension_new_at_rest (w : W) (ps : list string) (names : list string) :
  at_rest w ps ->
  forall cs, exists printers cs',
    comprehension Printer.new names (mk_env w cs) = (Ok printers, mk_env w cs')
    /\ map Printer._name printers = names.
Proof.
  intros Hrest. induction names as [|n names IH]; intros cs.
  - exists [], cs. split; reflexivity.
  - destruct (new_at_rest w ps n cs Hrest) as (p & cs1 & Hnew & Hname).
    destruct (IH cs1) as (printers & cs2 & Hrec & Hnames).
    exists (p :: printers), cs2. cbn [comprehension].
    erewrite bind_Ok; [|exact Hnew]. erewrite bind_Ok; [|exact Hrec].
    split; [reflexivity|]. cbn [map]. now rewrite Hname, Hnames.
Qed.

Lemma comprehension_new_names (names : list string) :
  forall (e e' : env W) (printers : list Printer.t),
    comprehension Printer.new names e = (Ok printers, e') ->
    map Printer._name printers = names.
Proof.
  induction names as [|n names IH]; intros e e' printers.
  - cbn [comprehension]. unfold ret. intros Hr. now inversion Hr.
  - cbn [comprehension]. unfold bind at 1.
    destruct (Printer.new n e) as [[p|x] e1] eqn:Hnew; [|discriminate].
    unfold bind at 1.
    destruct (comprehension Printer.new names e1) as [[rest|x] e2] eqn:Hrec;
      [|discriminate].
    unfold ret. intros Hr. inversion Hr; subst. cbn [map].
    now rewrite (new_name _ _ _ _ Hnew), (IH _ _ _ Hrec).
Qed.

(** C6. Default-printer and listing wrappers: [get_default] returns
    [None] when the library reports no name or an empty one, and otherwise
    a [Printer] bearing the reported name; [get_printers] returns one
    [Printer] per queue name the library lists, in the same order. *)
Theorem default_and_listing :
  (forall (e : env W) (w' : W) (reported : option string),
      getDefault (world e) = (Ok reported, w') ->
      reported = None \/ reported = Some EmptyString ->
      CUPS.get_default e = (Ok None, mk_env w' (calls e ++ [CallGetDefault])))
  /\
  (forall (e : env W) (w' : W) (n : string) (ps : list string),
      getDefault (world e) = (Ok (Some n), w') ->
      n <> EmptyString ->
      at_rest w' ps ->
      exists p e', CUPS.get_default e = (Ok (Some p), e') /\ Printer._name p = n)
  /\
  (forall (e e' : env W) (p : Printer.t),
      CUPS.get_default e = (Ok (Some p), e') ->
      exists w', getDefault (world e) = (Ok (Some (Printer._name p)), w')
                 /\ Printer._name p <> EmptyString)
  /\
  (forall (e : env W) (ps : list string),
      at_rest (world e) ps ->
      exists printers e',
        CUPS.get_printers e = (Ok printers, e')
        /\ map Printer._name printers = ps)
  /\
  (forall (e e' : env W) (printers : list Printer.t),
      CUPS.get_printers e = (Ok printers, e') ->
      exists w', getPrinters (world e) = (Ok (map Printer._name printers), w')).
Proof.
  split; [|split; [|split; [|split]]].
  - intros e w' reported Hd Hfalsy. unfold CUPS.get_default.
    erewrite bind_Ok; [|unfold invoke; rewrite Hd; reflexivity].
    destruct Hfalsy as [-> | ->]; reflexivity.
  - intros e w' n ps Hd Hne Hrest. unfold CUPS.get_default.
    erewrite bind_Ok; [|unfold invoke; rewrite Hd; reflexivity].
    assert (Htruthy : py_truthy (VStr n) = true).
    { simpl. destruct (String.eqb_spec n EmptyString); [contradiction | reflexivity]. }
    cbv beta iota. rewrite Htruthy.
    destruct (new_at_rest w' ps n (calls e ++ [CallGetDefault]) Hrest)
      as (p & cs' & Hnew & Hname).
    exists p, (mk_env w' cs'). erewrite bind_Ok; [|exact Hnew].
    split; [reflexivity | exact Hname].
  - intros e e' p. unfold CUPS.get_default, bind at 1, invoke.
    destruct (getDefault (world e)) as [[reported|x] w'] eqn:Hd; [|discriminate].
    destruct reported as [n|]; [|unfold ret; discriminate].
    destruct (py_truthy (VStr n)) eqn:Htruthy; [|unfold ret; discriminate].
    unfold bind.
    destruct (Printer.new n _) as [[q|x] e1] eqn:Hnew; [|discriminate].
    unfold ret. intros Hr. inversion Hr; subst.
    rewrite (new_name _ _ _ _ Hnew). exists w'. split; [reflexivity|].
    intros ->. discriminate.
  - intros [w cs] ps Hrest. unfold CUPS.get_printers.
    destruct Hrest as (Hc & Hps & Hattrs). cbn [world] in *.
    erewrite bind_Ok; [|unfold invoke; cbn [world calls]; rewrite Hps; reflexivity].
    destruct (comprehension_new_at_rest w ps ps (conj Hc (conj Hps Hattrs))
                (cs ++ [CallGetPrinters])) as (printers & cs' & Hrec & Hnames).
    now exists printers, (mk_env w cs').
  - intros e e' printers. unfold CUPS.get_printers, bind, invoke.
    destruct (getPrinters (world e)) as [[names|x] w'] eqn:Hps; [|discriminate].
    intros Hrec. apply comprehension_new_names in Hrec. rewrite Hrec. now exists w'.
Qed.

(** C7. Attribute caching: [Printer(name)] and an assignment to [name]
    store the dict the library returns for a listed name in [attributes],
    and its ['device-uri'] and ['printer-location'] entries in
    [device_uri] and [location]; for a name that is not listed the
    constructor leaves [attributes], [device_uri], [location] and [job_id]
    at [None], and the assignment leaves the four fields as they were. *)
Theorem attribute_caching :
  (forall (n : string) (e : env W) (ps : list string) (a : attrs)
          (uri loc : pyval) (w1 w2 w3 : W),
      Connection (world e) = (Ok tt, w1) ->
      getPrinters w1 = (Ok ps, w2) ->
      n ∈ ps ->
      getPrinterAttributes n w2 = (Ok a, w3) ->
      a !! "device-uri" = Some uri ->
      a !! "printer-location" = Some loc ->
      exists p e',
        Printer.new n e = (Ok p, e')
        /\ Printer._name p = n
        /\ Printer.attributes p = Some a
        /\ Printer.device_uri p = uri
        /\ Printer.location p = loc
        /\ Printer.job_id p = VNone)
  /\
  (forall (n : string) (e : env W) (ps : list string) (w1 w2 : W),
      Connection (world e) = (Ok tt, w1) ->
      getPrinters w1 = (Ok ps, w2) ->
      n ∉ ps ->
      exists p e',
        Printer.new n e = (Ok p, e')
        /\ Printer._name p = n
        /\ Printer.attributes p = None
        /\ Printer.device_uri p = VNone
        /\ Printer.location p = VNone
        /\ Printer.job_id p = VNone)
  /\
  (forall (p : Printer.t) (n : string) (e : env W) (ps : list string) (a : attrs)
          (uri loc : pyval) (w1 w2 : W),
      getPrinters (world e) = (Ok ps, w1) ->
      n ∈ ps ->
      getPrinterAttributes n w1 = (Ok a, w2) ->
      a !! "device-uri" = Some uri ->
      a !! "printer-location" = Some loc ->
      exists p' e',
        Printer.name_setter n (p, e) = (Ok tt, (p', e'))
        /\ Printer._name p' = n
        /\ Printer.attributes p' = Some a
        /\ Printer.device_uri p' = uri
        /\ Printer.location p' = loc
        /\ Printer.job_id p' = Printer.job_id p)
  /\
  (forall (p : Printer.t) (n : string) (e : env W) (ps : list string) (w1 : W),
      getPrinters (world e) = (Ok ps, w1) ->
      n ∉ ps ->
      exists p' e',
        Printer.name_setter n (p, e) = (Ok tt, (p', e'))
        /\ Printer._name p' = n
        /\ Printer.attributes p' = Printer.attributes p
        /\ Printer.device_uri p' = Printer.device_uri p
        /\ Printer.location p' = Printer.location p
        /\ Printer.job_id p' = Printer.job_id p).
Proof.
  split; [|split; [|split]].
  - intros n e ps a uri loc w1 w2 w3 Hc Hps Hin Ha Huri Hloc.
    eexists _, _.
    split; [exact (new_listed n e ps a uri loc w1 w2 w3 Hc Hps Hin Ha Huri Hloc)|].
    repeat split.
  - intros n e ps w1 w2 Hc Hps Hout.
    eexists _, _. split; [exact (new_unlisted n e ps w1 w2 Hc Hps Hout)|].
    repeat split.
  - intros p n e ps a uri loc w1 w2 Hps Hin Ha Huri Hloc.
    eexists _, _.
    split; [exact (name_setter_listed p e n ps a uri loc w1 w2 Hps Hin Ha Huri Hloc)|].
    repeat split.
  - intros p n e ps w1 Hps Hout.
    eexists _, _. split; [exact (name_setter_unlisted p e n ps w1 Hps Hout)|].
    repeat split.
Qed.

(** C8. Read-only validity flag: [valid] is true exactly when the
    printer's name is in the list the library returns, and an assignment
    to [valid] raises [AttributeError], changes no field and makes no
    library call. *)
Theorem valid_is_read_only :
  (forall (p : Printer.t) (e : env W) (ps : list string) (w1 : W),
      getPrinters (world e) = (Ok ps, w1) ->
      exists b : bool,
        Printer.valid (p, e) = (Ok b, (p, mk_env w1 (calls e ++ [CallGetPrinters])))
        /\ (b = true <-> Printer._name p ∈ ps))
  /\
  (forall (value : pyval) (p : Printer.t) (e : env W),
      exists x,
        Printer.valid_setter value (p, e) = (Raise x, (p, e))
        /\ exn_class x = AttributeError
        /\ exn_args x = [VStr "Valid is not a writable attribute."]).
Proof.
  split.
  - intros p e ps w1 Hps. exists (bool_decide (Printer._name p ∈ ps)).
    split; [exact (valid_run p e ps w1 Hps)|]. apply bool_decide_eq_true.
  - intros value p e. eexists. repeat split.
Qed.

(** C9. Dead fallback branch: the block guarded by [except KeyError] in
    [Job.status] and in [Printer.status] never raises [KeyError], so the
    handler returning ['Not detected.'] is never entered, whatever it is;
    for a state code outside the table with reasons [['none']], [status]
    returns [None]. *)
Theorem keyerror_handler_unreachable :
  (forall (state reasons : pyval) (s s' : Job.t * env W) (x : exn),
      Job.status_try state reasons s = (Raise x, s') -> caught_by KeyError x = false)
  /\
  (forall (state reasons : pyval) (s s' : Printer.t * env W) (x : exn),
      Printer.status_try state reasons s = (Raise x, s') ->
      caught_by KeyError x = false)
  /\
  (forall (state reasons : pyval) (s : Job.t * env W)
          (handler : exn -> M (Job.t * env W) pyval),
      try_except (Job.status_try state reasons) KeyError handler s
      = Job.status_try state reasons s)
  /\
  (forall (state reasons : pyval) (s : Printer.t * env W)
          (handler : exn -> M (Printer.t * env W) pyval),
      try_except (Printer.status_try state reasons) KeyError handler s
      = Printer.status_try state reasons s)
  /\
  (forall (j : Job.t) (e : env W) (a : attrs) (w' : W) (code : Z),
      getJobAttributes (Job.job_id j) (world e) = (Ok a, w') ->
      a !! "job-state" = Some (VInt code) ->
      claimed_job_state code = None ->
      a !! "job-state-reasons" = Some only_none ->
      Job.status (j, e)
      = (Ok VNone,
         (Job.set_attributes (Some a) j,
          mk_env w' (calls e ++ [CallGetJobAttributes (Job.job_id j)]))))
  /\
  (forall (p : Printer.t) (e : env W) (ps : list string) (a1 a2 : attrs)
          (w1 w2 w3 : W) (code : Z),
      getPrinters (world e) = (Ok ps, w1) ->
      Printer._name p ∈ ps ->
      getPrinterAttributes (Printer._name p) w1 = (Ok a1, w2) ->
      getPrinterAttributes (Printer._name p) w2 = (Ok a2, w3) ->
      a1 !! "printer-state" = Some (VInt code) ->
      claimed_printer_state code = None ->
      a2 !! "printer-state-reasons" = Some only_none ->
      Printer.status (p, e)
      = (Ok VNone,
         (p, mk_env w3 (calls e ++ [CallGetPrinters;
                                    CallGetPrinterAttributes (Printer._name p);
                                    CallGetPrinterAttributes (Printer._name p)])))).
Proof.
  assert (Hjob : forall (state reasons : pyval) (s s' : Job.t * env W) (x : exn),
             Job.status_try state reasons s = (Raise x, s') ->
             caught_by KeyError x = false).
  { intros state reasons s s' x. rewrite job_status_try_eq. intros Hx.
    inversion Hx as [[Hblock Hs]]. apply guarded_block_raises in Hblock.
    unfold caught_by. now rewrite Hblock. }
  assert (Hprinter : forall (state reasons : pyval) (s s' : Printer.t * env W) (x : exn),
             Printer.status_try state reasons s = (Raise x, s') ->
             caught_by KeyError x = false).
  { intros state reasons s s' x. rewrite printer_status_try_eq. intros Hx.
    inversion Hx as [[Hblock Hs]]. apply guarded_block_raises in Hblock.
    unfold caught_by. now rewrite Hblock. }
  split; [exact Hjob|]. split; [exact Hprinter|].
  split; [|split; [|split]].
  - intros state reasons s handler. unfold try_except.
    destruct (Job.status_try state reasons s) as [[out|x] s'] eqn:Hblock;
      [reflexivity|]. now rewrite (Hjob _ _ _ _ _ Hblock).
  - intros state reasons s handler. unfold try_except.
    destruct (Printer.status_try state reasons s) as [[out|x] s'] eqn:Hblock;
      [reflexivity|]. now rewrite (Hprinter _ _ _ _ _ Hblock).
  - intros j e a w' code Hlib Hstate Hcode Hreasons.
    unfold Job.status, try_except, bind, get_self, on_env, invoke, modify_self,
      lift_res, getitem. simpl. rewrite Hlib. simpl.
    rewrite Hstate, Hreasons. rewrite job_status_try_eq.
    unfold int_dict_get, as_number. now rewrite (job_states_unclaimed _ Hcode).
  - intros p e ps a1 a2 w1 w2 w3 code Hps Hin Ha1 Ha2 Hstate Hcode Hreasons.
    unfold Printer.status, Printer.valid, Printer.name, try_except, bind, get_self,
      on_env, invoke, lift_res, getitem, ret. simpl. rewrite Hps. simpl.
    rewrite (bool_decide_eq_true_2 _ Hin). simpl. rewrite Ha1. simpl.
    rewrite Hstate. rewrite Ha2. simpl. rewrite Hreasons.
    rewrite printer_status_try_eq.
    unfold int_dict_get, as_number. rewrite (printer_states_unclaimed _ Hcode).
    simpl. rewrite <- !app_assoc. reflexivity.
Qed.

(** C10. Atomicity of [print] on error: for a name that is not in the
    printer list, [print] raises after the validity check alone (the log
    gains the list-printers call and no print-file call) and every field
    of the [Printer] is as before; for a listed name, [print] stores the
    id the library's print-file call returns in [job_id] and returns it. *)
Theorem print_atomicity :
  (forall (p : Printer.t) (e : env W) (ps : list string) (w1 : W)
          (filename title : string) (options : gmap string string),
      getPrinters (world e) = (Ok ps, w1) ->
      Printer._name p ∉ ps ->
      exists x,
        Printer.print filename title options (p, e)
        = (Raise x, (p, mk_env w1 (calls e ++ [CallGetPrinters]))))
  /\
  (forall (p : Printer.t) (e : env W) (ps : list string) (w1 w2 : W)
          (filename title : string) (options : gmap string string) (id : Z),
      getPrinters (world e) = (Ok ps, w1) ->
      Printer._name p ∈ ps ->
      printFile (Printer._name p) filename title options w1 = (Ok id, w2) ->
      exists p',
        Printer.print filename title options (p, e)
        = (Ok (VInt id),
           (p', mk_env w2 (calls e ++ [CallGetPrinters;
                                       CallPrintFile (Printer._name p) filename
                                         title options])))
        /\ Printer.job_id p' = VInt id
        /\ p' = Printer.set_job_id (VInt id) p).
Proof.
  split.
  - intros p e ps w1 filename title options Hps Hout. eexists.
    unfold Printer.print. apply bind_Raise. exact (validate_fail p e ps w1 Hps Hout).
  - intros p e ps w1 w2 filename title options id Hps Hin Hprint.
    exists (Printer.set_job_id (VInt id) p). split; [|split; reflexivity].
    unfold Printer.print.
    erewrite bind_Ok; [|exact (validate_pass p e ps w1 Hps Hin)].
    unfold bind, Printer.name, get_self, on_env, invoke, modify_self, ret. simpl.
    rewrite Hprint. simpl. rewrite <- app_assoc. reflexivity.
Qed.

End Properties.

(** ** The theorems at work on the sample server *)

Ltac run := vm_compute; reflexivity.
Ltac decided :=
  match goal with |- ?P => apply (bool_decide_unpack P); vm_compute; exact I end.

Lemma office_at_rest :
  at_rest Sample.office ["laser"; "inkjet"; "plotter"].
Proof.
  split; [reflexivity|]. split; [reflexivity|].
  intros n Hin.
  repeat (apply elem_of_cons in Hin as [->|Hin]);
    [exists Sample.laser | exists Sample.inkjet | exists Sample.plotter
    | now apply elem_of_nil in Hin];
    (split; [run | split; eexists; run]).
Qed.

Lemma status_translation_witness :
  (exists s, Job.status (Job.mk (VInt 13) None, Sample.start)
             = (Ok (VStr "Processing-stopped - ['printer-stopped']"), s))
  /\
  (exists s, Job.status (Job.mk (VInt 12) None, Sample.start)
             = (Ok (VStr "Completed"), s))
  /\
  (exists s, Printer.status (Sample.printer_of "inkjet" Sample.inkjet, Sample.start)
             = (Ok (VStr "Stopped - ['media-empty-error', 'paused']"), s))
  /\
  (exists s, Printer.status (Sample.printer_of "laser" Sample.laser, Sample.start)
             = (Ok (VStr "Idle"), s)).
Proof.
  destruct (@status_translation Sample.server Sample.library) as [Hjob Hprinter].
  split; [|split; [|split]].
  - edestruct (Hjob (Job.mk (VInt 13) None) Sample.start) as (out & Hrun & _ & Happend);
      [run | run
      | run | run |].
    eexists. rewrite Hrun, (Happend ltac:(discriminate)). reflexivity.
  - edestruct (Hjob (Job.mk (VInt 12) None) Sample.start) as (out & Hrun & Hbare & _);
      [run | run
      | run | run |].
    eexists. rewrite Hrun, (Hbare eq_refl). reflexivity.
  - edestruct (Hprinter (Sample.printer_of "inkjet" Sample.inkjet) Sample.start)
      as (out & Hrun & _ & Happend);
      [run | decided | run
      | run | run | run
      | run |].
    eexists. rewrite Hrun, (Happend ltac:(discriminate)). reflexivity.
  - edestruct (Hprinter (Sample.printer_of "laser" Sample.laser) Sample.start)
      as (out & Hrun & Hbare & _);
      [run | decided | run
      | run | run | run
      | run |].
    eexists. rewrite Hrun, (Hbare eq_refl). reflexivity.
Defined.

Lemma control_file_parsing_witness :
  Job.job_number "c00042" = Ok (VInt 42)
  /\ Job.job_number "c0c0" = Ok VNone
  /\ Job.list Sample.start
     = (Ok [Job.mk (VInt 12) None; Job.mk (VInt 13) None; Job.mk (VInt 14) None],
        mk_env Sample.office [CallConnection; CallConnection; CallConnection]).
Proof.
  destruct (@control_file_parsing Sample.server Sample.library)
    as (_ & Hdigits & _ & Hnone & Hlist & _).
  split; [|split].
  - apply (Hdigits "c00042"); [vm_compute; discriminate | run].
  - apply (Hnone "c0c0"). run.
  - apply (Hlist Sample.start [VInt 12; VInt 13; VInt 14]); [run|].
    vm_compute. repeat constructor.
Defined.

Lemma error_relabelling_witness :
  raises (Job.status (Job.mk (VInt 99) None, Sample.start)) JobNotFoundError
  /\ raises (Job.cancel (Job.mk (VInt 12) None, Sample.start)) JobCompletedError
  /\ raises (Job.restart (Job.mk (VInt 12) None, Sample.start))
       JobDocumentNotAvailableError.
Proof.
  destruct (@error_relabelling Sample.server Sample.library) as [Hiff _].
  split; [|split].
  - apply (proj1 (Hiff (Job.mk (VInt 99) None) Sample.start)).
    exists Sample.not_found, Sample.office. split; run.
  - apply (proj1 (proj2 (Hiff (Job.mk (VInt 12) None) Sample.start))).
    exists Sample.not_possible, Sample.office. split; run.
  - apply (proj2 (proj2 (Hiff (Job.mk (VInt 12) None) Sample.start))).
    exists Sample.not_possible, Sample.office. split; run.
Defined.

Lemma unknown_printer_witness :
  Printer.delete (Sample.ghost, Sample.start)
  = (Raise (mk_exn NotImplementedError [VStr "Unable to locate the printer."]),
     (Sample.ghost, mk_env Sample.office [CallGetPrinters])).
Proof.
  apply (@unknown_printer_raises_NotImplementedError Sample.server Sample.library
           Sample.ghost Sample.start ["laser"; "inkjet"; "plotter"] Sample.office).
  - reflexivity.
  - decided.
Defined.

Lemma default_and_listing_witness :
  (exists p e', CUPS.get_default Sample.start = (Ok (Some p), e')
                /\ Printer._name p = "laser")
  /\
  (exists printers e', CUPS.get_printers Sample.start = (Ok printers, e')
                       /\ map Printer._name printers = ["laser"; "inkjet"; "plotter"]).
Proof.
  destruct (@default_and_listing Sample.server Sample.library)
    as (_ & Hdefault & _ & Hlist & _).
  split.
  - apply (Hdefault Sample.start Sample.office "laser" ["laser"; "inkjet"; "plotter"]);
      [reflexivity | discriminate | exact office_at_rest].
  - apply (Hlist Sample.start). exact office_at_rest.
Defined.

Lemma attribute_caching_witness :
  (exists p e', Printer.new "laser" Sample.start = (Ok p, e')
                /\ Printer._name p = "laser"
                /\ Printer.attributes p = Some Sample.laser
                /\ Printer.device_uri p = VStr "ipp://10.0.0.7/ipp/print"
                /\ Printer.location p = VStr "hall"
                /\ Printer.job_id p = VNone)
  /\
  (exists p e', Printer.new "ghost" Sample.start = (Ok p, e')
                /\ Printer._name p = "ghost"
                /\ Printer.attributes p = None
                /\ Printer.device_uri p = VNone
                /\ Printer.location p = VNone
                /\ Printer.job_id p = VNone).
Proof.
  destruct (@attribute_caching Sample.server Sample.library)
    as (Hlisted & Hunlisted & _).
  split.
  - apply (Hlisted "laser" Sample.start ["laser"; "inkjet"; "plotter"] Sample.laser
             (VStr "ipp://10.0.0.7/ipp/print") (VStr "hall")
             Sample.office Sample.office Sample.office);
      [reflexivity | reflexivity | decided | run | run | run].
  - apply (Hunlisted "ghost" Sample.start ["laser"; "inkjet"; "plotter"]
             Sample.office Sample.office);
      [reflexivity | reflexivity | decided].
Defined.

(** C7 read as a statement about every assignment to [name] fails on this
    run: a [Printer] built for a listed queue, after printing a job, keeps
    its cached dict, URI, location and job id when its name is reassigned to
    a name the library does not list. *)
Lemma renaming_keeps_cached_fields :
  exists p1 e1 p2 e2 p3 e3,
    Printer.new "laser" Sample.start = (Ok p1, e1)
    /\ Printer.print "a.pdf" "report" ∅ (p1, e1) = (Ok (VInt 15), (p2, e2))
    /\ getPrinters (world e2) = (Ok ["laser"; "inkjet"; "plotter"], world e2)
    /\ Printer.name_setter "ghost" (p2, e2) = (Ok tt, (p3, e3))
    /\ Printer.attributes p3 = Some Sample.laser
    /\ Printer.device_uri p3 = VStr "ipp://10.0.0.7/ipp/print"
    /\ Printer.location p3 = VStr "hall"
    /\ Printer.job_id p3 = VInt 15.
Proof.
  do 6 eexists.
  split; [run|]. split; [run|]. split; [run|]. split; [run|].
  repeat split; run.
Qed.

Lemma valid_is_read_only_witness :
  (exists s, Printer.valid (Sample.ghost, Sample.start) = (Ok false, s))
  /\
  (exists s, Printer.valid (Sample.printer_of "laser" Sample.laser, Sample.start)
             = (Ok true, s)).
Proof.
  destruct (@valid_is_read_only Sample.server Sample.library) as [Hvalid _].
  split.
  - destruct (Hvalid Sample.ghost Sample.start ["laser"; "inkjet"; "plotter"]
                Sample.office eq_refl) as (b & Hrun & Hiff).
    destruct b.
    + exfalso. apply (bool_decide_eq_false_1 ("ghost" ∈ ["laser"; "inkjet"; "plotter"]));
        [run | exact (proj1 Hiff eq_refl)].
    + eexists. exact Hrun.
  - destruct (Hvalid (Sample.printer_of "laser" Sample.laser) Sample.start
                ["laser"; "inkjet"; "plotter"] Sample.office eq_refl)
      as (b & Hrun & Hiff).
    rewrite (proj2 Hiff ltac:(decided)) in Hrun. eexists. exact Hrun.
Defined.

Lemma keyerror_handler_unreachable_witness :
  (exists s, Job.status (Job.mk (VInt 14) None, Sample.start) = (Ok VNone, s))
  /\
  (exists s, Printer.status (Sample.printer_of "plotter" Sample.plotter, Sample.start)
             = (Ok VNone, s)).
Proof.
  destruct (@keyerror_handler_unreachable Sample.server Sample.library)
    as (_ & _ & _ & _ & Hjob & Hprinter).
  split.
  - eexists.
    apply (Hjob (Job.mk (VInt 14) None) Sample.start Sample.job14 Sample.office 2);
      [run | run | reflexivity | run].
  - eexists.
    apply (Hprinter (Sample.printer_of "plotter" Sample.plotter) Sample.start
             ["laser"; "inkjet"; "plotter"] Sample.plotter Sample.plotter
             Sample.office Sample.office Sample.office 6);
      [reflexivity | decided | run | run | run | reflexivity | run].
Defined.

Lemma print_atomicity_witness :
  (exists x, Printer.print "a.pdf" "report" ∅ (Sample.ghost, Sample.start)
             = (Raise x, (Sample.ghost, mk_env Sample.office [CallGetPrinters])))
  /\
  (exists s, Printer.print "a.pdf" "report" ∅
               (Sample.printer_of "laser" Sample.laser, Sample.start)
             = (Ok (VInt 15), s)
             /\ Printer.job_id (fst s) = VInt 15).
Proof.
  destruct (@print_atomicity Sample.server Sample.library) as [Hfail Hpass].
  split.
  - apply (Hfail Sample.ghost Sample.start ["laser"; "inkjet"; "plotter"] Sample.office);
      [reflexivity | decided].
  - edestruct (Hpass (Sample.printer_of "laser" Sample.laser) Sample.start
                ["laser"; "inkjet"; "plotter"] Sample.office)
      as (p' & Hrun & Hid & _); [reflexivity | decided | run |].
    eexists. split; [exact Hrun | exact Hid].
Defined.

(** ** Further properties of the wrapper *)

(** ** Decimal text of job ids *)

Lemma pretty_char_digit (x : N) :
  (x < 10)%N ->
  PyStr.is_digit (pretty_N_char x) = true
  /\ PyStr.digit_value (pretty_N_char x) = Z.of_N x.
Proof.
  intros Hx.
  assert (x = 0 \/ x = 1 \/ x = 2 \/ x = 3 \/ x = 4 \/ x = 5 \/ x = 6 \/ x = 7
          \/ x = 8 \/ x = 9)%N as Hcases by lia.
  repeat (destruct Hcases as [->|Hcases]; [split; reflexivity|]).
  subst. split; reflexivity.
Qed.

Lemma pretty_go_digits (x : N) :
  forall s, all_chars PyStr.is_digit s = true ->
            all_chars PyStr.is_digit (pretty_N_go x s) = true.
Proof.
  induction (N.lt_wf_0 x) as [x _ IH]. intros s Hs.
  destruct (decide (0 < x)%N) as [Hpos|Hzero].
  - rewrite pretty_N_go_step by exact Hpos.
    apply IH; [now apply N.div_lt|]. simpl. rewrite Hs, andb_true_r.
    apply pretty_char_digit. now apply N.mod_lt.
  - assert (x = 0%N) as -> by lia. now rewrite pretty_N_go_0.
Qed.

Lemma pretty_go_value (x : N) :
  forall s, decimal_from 0 (pretty_N_go x s) = decimal_from (Z.of_N x) s.
Proof.
  induction (N.lt_wf_0 x) as [x _ IH]. intros s.
  destruct (decide (0 < x)%N) as [Hpos|Hzero].
  - rewrite pretty_N_go_step by exact Hpos.
    rewrite IH by now apply N.div_lt. simpl.
    destruct (pretty_char_digit (x mod 10)) as [_ ->]; [now apply N.mod_lt|].
    f_equal. rewrite (N.div_mod x 10) at 3 by discriminate. lia.
  - assert (x = 0%N) as -> by lia. now rewrite pretty_N_go_0.
Qed.

(** The text of a positive number starts with a digit other than ['0']. *)
Lemma pretty_go_leading (x : N) :
  (0 < x)%N ->
  forall s, exists c r, pretty_N_go x s = String c r /\ c_or_0 c = false.
Proof.
  induction (N.lt_wf_0 x) as [x _ IH]. intros Hpos s.
  rewrite pretty_N_go_step by exact Hpos.
  destruct (N.eq_0_gt_0_cases (x `div` 10)) as [Hq|Hmore].
  2: { apply IH; [now apply N.div_lt | exact Hmore]. }
  - rewrite Hq, pretty_N_go_0.
    eexists _, _. split; [reflexivity|].
    assert (x < 10)%N as Hlt by (apply N.div_small_iff in Hq; [exact Hq | discriminate]).
    rewrite N.mod_small by exact Hlt.
    assert (x = 1 \/ x = 2 \/ x = 3 \/ x = 4 \/ x = 5 \/ x = 6 \/ x = 7
            \/ x = 8 \/ x = 9)%N as Hcases by lia.
    repeat (destruct Hcases as [->|Hcases]; [reflexivity|]). now subst.
Qed.

Lemma pretty_positive_text (n : Z) :
  0 < n ->
  exists c r, pretty n = String c r /\ c_or_0 c = false
              /\ all_chars PyStr.is_digit (pretty n) = true
              /\ decimal_value (pretty n) = n.
Proof.
  destruct n as [|p|p]; try lia. intros _.
  assert (pretty (Z.pos p) = pretty_N_go (N.pos p) EmptyString) as ->.
  { unfold pretty, pretty_Z, pretty_positive, pretty, pretty_N.
    destruct (decide (N.pos p = 0%N)); [discriminate | reflexivity]. }
  destruct (pretty_go_leading (N.pos p) eq_refl EmptyString) as (c & r & Htext & Hc).
  exists c, r. split; [exact Htext|]. split; [exact Hc|]. split.
  - now apply pretty_go_digits.
  - unfold decimal_value. now rewrite pretty_go_value.
Qed.

Lemma drop_c0_zeros (k : nat) (s : string) : drop_c0 (zeros k +:+ s) = drop_c0 s.
Proof. induction k as [|k IH]; [reflexivity | exact IH]. Qed.

Lemma zeros_all (k : nat) : all_chars c_or_0 (zeros k) = true.
Proof. induction k as [|k IH]; [reflexivity | exact IH]. Qed.

Lemma all_chars_app (P : ascii -> bool) (s t : string) :
  all_chars P (s +:+ t) = all_chars P s && all_chars P t.
Proof.
  induction s as [|c s IH]; [reflexivity|].
  change (P c && all_chars P (s +:+ t) = P c && all_chars P s && all_chars P t).
  now rewrite IH, andb_assoc.
Qed.

(** X1. Job ids survive the trip through control-file names: the text
    [__str__] prints for a positive id, padded with any number of zeros and
    prefixed with ['c'], is read back by [job_number] as the same id; the
    id 0 does not survive (its name reads as [None], which [__str__] prints
    as ['None']); [__repr__] is that text between ["Job: <"] and [">"]. *)
Theorem job_id_round_trip :
  forall (k : nat) (n : Z),
    (0 < n ->
     Job.job_number (String "c" (zeros k +:+ Job.str (Job.mk (VInt n) None)))
     = Ok (VInt n))
    /\
    Job.job_number (String "c" (zeros k +:+ Job.str (Job.mk (VInt 0) None)))
    = Ok VNone
    /\
    Job.str (Job.mk VNone None) = "None"
    /\
    Job.repr (Job.mk (VInt n) None)
    = "Job: <" +:+ Job.str (Job.mk (VInt n) None) +:+ ">".
Proof.
  intros k n. split; [|split; [|split]]; [| |reflexivity|].
  3: { unfold Job.repr, Job.str, format1. simpl. now rewrite append_empty. }
  - intros Hpos.
    assert (Job.str (Job.mk (VInt n) None) = pretty n) as ->.
    { unfold Job.str, format1. simpl. now rewrite append_empty. }
    destruct (pretty_positive_text n Hpos) as (c & r & Htext & Hc & Hdigits & Hvalue).
    rewrite job_number_drop.
    change (drop_c0 (String "c" (zeros k +:+ pretty n)))
      with (drop_c0 (zeros k +:+ pretty n)).
    rewrite drop_c0_zeros.
    assert (drop_c0 (pretty n) = pretty n) as ->.
    { rewrite Htext. simpl. now rewrite Hc. }
    pose proof (py_int_digits (pretty n)) as Hint.
    rewrite Htext in *.
    rewrite Hint; [simpl; now rewrite Hvalue | discriminate | exact Hdigits].
  - rewrite job_number_drop, drop_c0_all; [reflexivity|].
    change (all_chars c_or_0 (zeros k +:+ "0") = true).
    rewrite all_chars_app, zeros_all. reflexivity.
Qed.

Lemma relabel_caught (relabelled x : exn) :
  caught_by IPPError relabelled = true ->
  caught_by IPPError (relabel relabelled x) = caught_by IPPError x.
Proof.
  intros Hr. unfold relabel. destruct (caught_by IPPError x) eqn:Hx; [exact Hr | exact Hx].
Qed.

Lemma try_except_describe {St : Type} (m : M St pyval) (table : gmap Z string)
    (state reasons : pyval) (handler : exn -> M St pyval) (s : St) :
  m s = (describe table state reasons, s) ->
  try_except m KeyError handler s = (describe table state reasons, s).
Proof.
  intros Hm. unfold try_except. rewrite Hm.
  destruct (describe table state reasons) as [v|x] eqn:Hd; [reflexivity|].
  apply guarded_block_raises in Hd. unfold caught_by. now rewrite Hd.
Qed.

(** *** What the guarded block can return *)

Lemma describe_ok (table : gmap Z string) (state reasons v : pyval) :
  describe table state reasons = Ok v ->
  v = VNone \/ exists code text rest, table !! code = Some text /\ v = VStr (text +:+ rest).
Proof.
  unfold describe, int_dict_get.
  destruct state as [| b | z | s | l]; simpl; try discriminate;
    try (destruct (py_eq reasons only_none); simpl; intros Hv; inversion Hv; now left).
  - destruct (table !! (if b then 1 else 0)) as [text|] eqn:Hl; simpl;
      destruct (py_eq reasons only_none); simpl; intros Hv; inversion Hv;
      try (now left); right.
    + exists (if b then 1 else 0), text, EmptyString. now rewrite append_empty.
    + eexists _, text, _. split; [exact Hl | reflexivity].
  - destruct (table !! z) as [text|] eqn:Hl; simpl;
      destruct (py_eq reasons only_none); simpl; intros Hv; inversion Hv;
      try (now left); right.
    + exists z, text, EmptyString. now rewrite append_empty.
    + eexists _, text, _. split; [exact Hl | reflexivity].
Qed.

Lemma job_states_lookup (code : Z) (text : string) :
  Job.job_states !! code = Some text -> claimed_job_state code = Some text.
Proof.
  intros Hl. destruct (claimed_job_state code) as [t|] eqn:Hc.
  - apply job_states_claimed in Hc. congruence.
  - apply job_states_unclaimed in Hc. congruence.
Qed.

Lemma printer_states_lookup (code : Z) (text : string) :
  Printer.printer_states !! code = Some text -> claimed_printer_state code = Some text.
Proof.
  intros Hl. destruct (claimed_printer_state code) as [t|] eqn:Hc.
  - apply printer_states_claimed in Hc. congruence.
  - apply printer_states_unclaimed in Hc. congruence.
Qed.

Lemma job_text_detected (code : Z) (text rest : string) :
  claimed_job_state code = Some text -> text +:+ rest <> "Not detected.".
Proof.
  unfold claimed_job_state. intros Hc.
  destruct code as [|p|p]; try discriminate.
  repeat (destruct p as [p|p|]; try discriminate); inversion Hc; discriminate.
Qed.

Lemma printer_text_detected (code : Z) (text rest : string) :
  claimed_printer_state code = Some text -> text +:+ rest <> "Not detected.".
Proof.
  unfold claimed_printer_state. intros Hc.
  destruct code as [|p|p]; try discriminate.
  repeat (destruct p as [p|p|]; try discriminate); inversion Hc; discriminate.
Qed.

(** An unknown state with reasons to append: [None + str]. *)
Lemma describe_unknown_with_reasons (table : gmap Z string) (code : Z) (reasons : pyval) :
  table !! code = None ->
  reasons <> only_none ->
  exists x, describe table (VInt code) reasons = Raise x /\ exn_class x = TypeError.
Proof.
  intros Hl Hne. unfold describe, int_dict_get. simpl. rewrite Hl. simpl.
  rewrite (py_eq_only_none_false _ Hne). eexists. split; reflexivity.
Qed.

Lemma job_number_raises (filename : string) (x : exn) :
  Job.job_number filename = Raise x -> exn_class x = ValueError.
Proof.
  rewrite job_number_drop. destruct (drop_c0 filename) as [|c s]; [discriminate|].
  unfold py_int. destruct (PyInt.parse (String c s)); simpl; [discriminate|].
  intros Hx. now inversion Hx.
Qed.

Lemma construction_calls_length (ps : list string) :
  length (concat (map construction_calls ps)) = (3 * length ps)%nat.
Proof.
  induction ps as [|n ps IH]; [reflexivity|].
  cbn [map concat]. rewrite length_app, IH. cbn [construction_calls length]. lia.
Qed.

Section Coverage.
Context {W : Type} `{Library W}.

(** *** Every outcome of the [Job] methods *)

Lemma job_status_cases (j : Job.t) (e : env W) :
  Job.status (j, e) =
  match getJobAttributes (Job.job_id j) (world e) with
  | (Ok a, w') =>
      (res_bind (getitem (Some a) "job-state") (fun state =>
         res_bind (getitem (Some a) "job-state-reasons") (fun reasons =>
           describe Job.job_states state reasons)),
       (Job.set_attributes (Some a) j,
        mk_env w' (calls e ++ [CallGetJobAttributes (Job.job_id j)])))
  | (Raise x, w') =>
      (Raise (relabel (job_not_found j) x),
       (j, mk_env w' (calls e ++ [CallGetJobAttributes (Job.job_id j)])))
  end.
Proof.
  unfold Job.status, try_except at 1, bind, get_self, on_env, invoke, modify_self,
    lift_res, raise, relabel. simpl.
  destruct (getJobAttributes (Job.job_id j) (world e)) as [[a|x] w']; simpl.
  - unfold getitem.
    destruct (a !! "job-state") as [state|]; simpl; [|reflexivity].
    destruct (a !! "job-state-reasons") as [reasons|]; simpl; [|reflexivity].
    apply try_except_describe, job_status_try_eq.
  - destruct (caught_by IPPError x); reflexivity.
Qed.

Lemma job_cancel_cases (j : Job.t) (e : env W) :
  Job.cancel (j, e) =
  match cancelJob (Job.job_id j) (world e) with
  | (Ok u, w') => (Ok tt, (j, mk_env w' (calls e ++ [CallCancelJob (Job.job_id j)])))
  | (Raise x, w') =>
      (Raise (relabel (job_completed j) x),
       (j, mk_env w' (calls e ++ [CallCancelJob (Job.job_id j)])))
  end.
Proof.
  unfold Job.cancel, try_except, bind, get_self, on_env, invoke, raise, relabel. simpl.
  destruct (cancelJob (Job.job_id j) (world e)) as [[[]|x] w']; simpl; [reflexivity|].
  destruct (caught_by IPPError x); reflexivity.
Qed.

Lemma job_restart_cases (j : Job.t) (e : env W) :
  Job.restart (j, e) =
  match restartJob (Job.job_id j) (world e) with
  | (Ok u, w') => (Ok tt, (j, mk_env w' (calls e ++ [CallRestartJob (Job.job_id j)])))
  | (Raise x, w') =>
      (Raise (relabel (job_document_missing j) x),
       (j, mk_env w' (calls e ++ [CallRestartJob (Job.job_id j)])))
  end.
Proof.
  unfold Job.restart, try_except, bind, get_self, on_env, invoke, raise, relabel. simpl.
  destruct (restartJob (Job.job_id j) (world e)) as [[[]|x] w']; simpl; [reflexivity|].
  destruct (caught_by IPPError x); reflexivity.
Qed.

(** X2. The exceptions of [exceptions.py] stay within [IPPError]: whenever
    [Job.status], [Job.cancel] or [Job.restart] raises, the exception is
    caught by [except cups.IPPError] exactly when the library call behind
    it raised an [IPPError]; re-labelling never hides a library error from
    such a handler and never turns another failure into one. *)
Theorem relabelling_keeps_ipp_errors :
  forall (j : Job.t) (e : env W) (x : exn) (s : Job.t * env W),
    (Job.status (j, e) = (Raise x, s) ->
     (caught_by IPPError x = true
      <-> ipp_raised (getJobAttributes (Job.job_id j) (world e))))
    /\
    (Job.cancel (j, e) = (Raise x, s) ->
     (caught_by IPPError x = true
      <-> ipp_raised (cancelJob (Job.job_id j) (world e))))
    /\
    (Job.restart (j, e) = (Raise x, s) ->
     (caught_by IPPError x = true
      <-> ipp_raised (restartJob (Job.job_id j) (world e)))).
Proof.
  intros j e x s. split; [|split].
  - rewrite job_status_cases.
    destruct (getJobAttributes (Job.job_id j) (world e)) as [[a|x0] w'] eqn:Hlib.
    + intros Hx. inversion Hx as [[Hraise Hs]]. clear Hx Hs.
      assert (exn_class x = KeyError \/ exn_class x = TypeError) as Hclass.
      { unfold getitem in Hraise.
        destruct (a !! "job-state") as [state|]; simpl in Hraise;
          [|inversion Hraise; now left].
        destruct (a !! "job-state-reasons") as [reasons|]; simpl in Hraise;
          [|inversion Hraise; now left].
        right. exact (guarded_block_raises _ _ _ _ Hraise). }
      split.
      * unfold caught_by. destruct Hclass as [-> | ->]; discriminate.
      * intros (x1 & w1 & Hx1 & _). discriminate.
    + intros Hx. inversion Hx; subst. rewrite relabel_caught by reflexivity.
      split; [intros Hc; now exists x0, w' |].
      intros (x1 & w1 & Hx1 & Hc). now inversion Hx1; subst.
  - rewrite job_cancel_cases.
    destruct (cancelJob (Job.job_id j) (world e)) as [[u|x0] w'] eqn:Hlib;
      [discriminate|].
    intros Hx. inversion Hx; subst. rewrite relabel_caught by reflexivity.
    split; [intros Hc; now exists x0, w' |].
    intros (x1 & w1 & Hx1 & Hc). now inversion Hx1; subst.
  - rewrite job_restart_cases.
    destruct (restartJob (Job.job_id j) (world e)) as [[u|x0] w'] eqn:Hlib;
      [discriminate|].
    intros Hx. inversion Hx; subst. rewrite relabel_caught by reflexivity.
    split; [intros Hc; now exists x0, w' |].
    intros (x1 & w1 & Hx1 & Hc). now inversion Hx1; subst.
Qed.

(** X3. What the [Job] methods leave alone: a library failure that is
    not an [IPPError] comes out of [status], [cancel] and [restart] as the
    very exception the library raised, with nothing cached; [cancel] and
    [restart] return [None] when the library call returns; and whatever
    happens, [cancel] and [restart] keep the [Job]'s fields and log exactly
    the one call. *)
Theorem job_methods_pass_through :
  (forall (j : Job.t) (e : env W) (x : exn) (w' : W),
      caught_by IPPError x = false ->
      (getJobAttributes (Job.job_id j) (world e) = (Raise x, w') ->
       Job.status (j, e)
       = (Raise x, (j, mk_env w' (calls e ++ [CallGetJobAttributes (Job.job_id j)]))))
      /\
      (cancelJob (Job.job_id j) (world e) = (Raise x, w') ->
       Job.cancel (j, e)
       = (Raise x, (j, mk_env w' (calls e ++ [CallCancelJob (Job.job_id j)]))))
      /\
      (restartJob (Job.job_id j) (world e) = (Raise x, w') ->
       Job.restart (j, e)
       = (Raise x, (j, mk_env w' (calls e ++ [CallRestartJob (Job.job_id j)])))))
  /\
  (forall (j : Job.t) (e : env W) (u : unit) (w' : W),
      (cancelJob (Job.job_id j) (world e) = (Ok u, w') ->
       Job.cancel (j, e)
       = (Ok tt, (j, mk_env w' (calls e ++ [CallCancelJob (Job.job_id j)]))))
      /\
      (restartJob (Job.job_id j) (world e) = (Ok u, w') ->
       Job.restart (j, e)
       = (Ok tt, (j, mk_env w' (calls e ++ [CallRestartJob (Job.job_id j)])))))
  /\
  (forall (j : Job.t) (e : env W),
      snd (Job.cancel (j, e))
      = (j, mk_env (snd (cancelJob (Job.job_id j) (world e)))
              (calls e ++ [CallCancelJob (Job.job_id j)]))
      /\
      snd (Job.restart (j, e))
      = (j, mk_env (snd (restartJob (Job.job_id j) (world e)))
              (calls e ++ [CallRestartJob (Job.job_id j)]))).
Proof.
  split; [|split].
  - intros j e x w' Hc. unfold relabel.
    split; [|split]; intros Hlib.
    + rewrite job_status_cases, Hlib. unfold relabel. now rewrite Hc.
    + rewrite job_cancel_cases, Hlib. unfold relabel. now rewrite Hc.
    + rewrite job_restart_cases, Hlib. unfold relabel. now rewrite Hc.
  - intros j e u w'. split; intros Hlib.
    + now rewrite job_cancel_cases, Hlib.
    + now rewrite job_restart_cases, Hlib.
  - intros j e. split.
    + rewrite job_cancel_cases.
      now destruct (cancelJob (Job.job_id j) (world e)) as [[u|x] w'].
    + rewrite job_restart_cases.
      now destruct (restartJob (Job.job_id j) (world e)) as [[u|x] w'].
Qed.

(** *** Every outcome of the [Printer] checks *)

Lemma valid_cases (p : Printer.t) (e : env W) :
  Printer.valid (p, e) =
  match getPrinters (world e) with
  | (Ok ps, w1) =>
      (Ok (bool_decide (Printer._name p ∈ ps)),
       (p, mk_env w1 (calls e ++ [CallGetPrinters])))
  | (Raise x, w1) => (Raise x, (p, mk_env w1 (calls e ++ [CallGetPrinters])))
  end.
Proof.
  unfold Printer.valid, Printer.name, bind, get_self, on_env, invoke, ret. simpl.
  destruct (getPrinters (world e)) as [[ps|x] w1]; simpl; [|reflexivity].
  now destruct (bool_decide _).
Qed.

Lemma validate_cases (p : Printer.t) (e : env W) :
  Printer.validate (p, e) =
  match getPrinters (world e) with
  | (Ok ps, w1) =>
      (if bool_decide (Printer._name p ∈ ps) then Ok tt
       else Raise (mk_exn NotImplementedError [VStr (Printer.default_message p)]),
       (p, mk_env w1 (calls e ++ [CallGetPrinters])))
  | (Raise x, w1) => (Raise x, (p, mk_env w1 (calls e ++ [CallGetPrinters])))
  end.
Proof.
  unfold Printer.validate, bind. rewrite valid_cases.
  destruct (getPrinters (world e)) as [[ps|x] w1]; [|reflexivity].
  now destruct (bool_decide _).
Qed.

(** An operation that validates and then makes one library call on the
    printer's name. *)
Lemma validated_call_cases {A : Type} (c : string -> call)
    (f : string -> W -> res A * W) (p : Printer.t) (e : env W) :
  (Printer.validate ;;;
   n <- Printer.name ;; on_env (invoke (c n) (f n))) (p, e) =
  match Printer.validate (p, e) with
  | (Ok _, (_, e1)) =>
      (fst (f (Printer._name p) (world e1)),
       (p, mk_env (snd (f (Printer._name p) (world e1)))
             (calls e1 ++ [c (Printer._name p)])))
  | (Raise x, s) => (Raise x, s)
  end.
Proof.
  unfold bind at 1. rewrite validate_cases.
  destruct (getPrinters (world e)) as [[ps|x] w1]; [|reflexivity].
  destruct (bool_decide _); [|reflexivity].
  unfold bind, Printer.name, get_self, on_env, invoke, ret. simpl.
  now destruct (f (Printer._name p) w1).
Qed.

Lemma status_frame (p : Printer.t) (e : env W) :
  fst (snd (Printer.status (p, e))) = p.
Proof.
  unfold Printer.status, bind at 1, get_self. cbn [fst snd].
  unfold bind at 1. rewrite valid_cases.
  destruct (getPrinters (world e)) as [[ps|x] w1]; [|reflexivity].
  destruct (bool_decide _); [|reflexivity].
  unfold bind, Printer.name, get_self, on_env, invoke, lift_res, getitem, ret. simpl.
  destruct (getPrinterAttributes (Printer._name p) w1) as [[a1|x] w2]; simpl;
    [|reflexivity].
  destruct (a1 !! "printer-state") as [state|]; simpl; [|reflexivity].
  destruct (getPrinterAttributes (Printer._name p) w2) as [[a2|x] w3]; simpl;
    [|reflexivity].
  destruct (a2 !! "printer-state-reasons") as [reasons|]; simpl; [|reflexivity].
  erewrite try_except_describe; [reflexivity|]. apply printer_status_try_eq.
Qed.

Lemma print_frame (p : Printer.t) (e : env W) (filename title : string)
    (options : gmap string string) :
  match Printer.print filename title options (p, e) with
  | (Ok v, (p', _)) => p' = Printer.set_job_id v p /\ exists id, v = VInt id
  | (Raise _, (p', _)) => p' = p
  end.
Proof.
  unfold Printer.print, bind at 1. rewrite validate_cases.
  destruct (getPrinters (world e)) as [[ps|x] w1]; [|reflexivity].
  destruct (bool_decide _); [|reflexivity].
  unfold bind, Printer.name, get_self, on_env, invoke, modify_self, ret. simpl.
  destruct (printFile (Printer._name p) filename title options w1) as [[id|x] w2];
    simpl; [|reflexivity].
  split; [reflexivity | now exists id].
Qed.

(** X4. Reading never writes: [valid], [validate], [status], [delete],
    [disable], [enable], [add], [export_ppd] and a refused assignment to
    [valid] leave every field of the [Printer] as it was, whatever the
    library answers or raises; [print] changes a field only when it
    returns, and then only [job_id], to the integer it returns. *)
Theorem printer_fields_frame :
  forall (p : Printer.t) (e : env W),
    fst (snd (Printer.valid (p, e))) = p
    /\ fst (snd (Printer.validate (p, e))) = p
    /\ fst (snd (Printer.status (p, e))) = p
    /\ fst (snd (Printer.delete (p, e))) = p
    /\ fst (snd (Printer.disable (p, e))) = p
    /\ fst (snd (Printer.enable (p, e))) = p
    /\ fst (snd (Printer.add (p, e))) = p
    /\ fst (snd (Printer.export_ppd (p, e))) = p
    /\ (forall value, fst (snd (Printer.valid_setter value (p, e))) = p)
    /\ (forall filename title options,
          match Printer.print filename title options (p, e) with
          | (Ok v, (p', _)) => p' = Printer.set_job_id v p /\ exists id, v = VInt id
          | (Raise _, (p', _)) => p' = p
          end).
Proof.
  intros p e.
  assert (Hvalidate : fst (snd (Printer.validate (p, e))) = p).
  { rewrite validate_cases. now destruct (getPrinters (world e)) as [[ps|x] w1]. }
  assert (Hcall : forall (c : string -> call) (f : string -> W -> res unit * W),
             fst (snd ((Printer.validate ;;;
                        n <- Printer.name ;; on_env (invoke (c n) (f n))) (p, e))) = p).
  { intros c f. rewrite validated_call_cases.
    destruct (Printer.validate (p, e)) as [[u|x] [p' e1]]; [reflexivity | exact Hvalidate]. }
  split; [rewrite valid_cases; now destruct (getPrinters (world e)) as [[ps|x] w1]|].
  split; [exact Hvalidate|]. split; [apply status_frame|].
  split; [apply (Hcall CallDeletePrinter deletePrinter)|].
  split; [apply (Hcall CallDisablePrinter disablePrinter)|].
  split; [apply (Hcall CallEnablePrinter enablePrinter)|].
  split; [exact Hvalidate|]. split; [exact Hvalidate|]. split; [reflexivity|].
  intros filename title options. apply print_frame.
Qed.

(** X5. Printer operations do not re-label: for a listed printer,
    [delete], [disable] and [enable] end exactly as the library call they
    make ends, an [IPPError] included, after one list-printers call and
    that one call; a failure of the library's print-file call leaves
    [print] with the same exception and [job_id] untouched. *)
Theorem printer_operations_forward :
  forall (p : Printer.t) (e : env W) (ps : list string) (w1 : W),
    getPrinters (world e) = (Ok ps, w1) ->
    Printer._name p ∈ ps ->
    let n := Printer._name p in
    let after (c : call) (w2 : W) := (p, mk_env w2 (calls e ++ [CallGetPrinters; c])) in
    Printer.delete (p, e)
    = (fst (deletePrinter n w1), after (CallDeletePrinter n) (snd (deletePrinter n w1)))
    /\ Printer.disable (p, e)
       = (fst (disablePrinter n w1), after (CallDisablePrinter n) (snd (disablePrinter n w1)))
    /\ Printer.enable (p, e)
       = (fst (enablePrinter n w1), after (CallEnablePrinter n) (snd (enablePrinter n w1)))
    /\ (forall filename title options x w2,
          printFile n filename title options w1 = (Raise x, w2) ->
          Printer.print filename title options (p, e)
          = (Raise x, after (CallPrintFile n filename title options) w2)).
Proof.
  intros p e ps w1 Hps Hin n after.
  assert (Hcall : forall (c : string -> call) (f : string -> W -> res unit * W),
             (Printer.validate ;;;
              m <- Printer.name ;; on_env (invoke (c m) (f m))) (p, e)
             = (fst (f n w1), after (c n) (snd (f n w1)))).
  { intros c f. rewrite validated_call_cases, validate_cases, Hps.
    rewrite (bool_decide_eq_true_2 _ Hin). unfold after. cbn [world calls].
    now rewrite <- app_assoc. }
  split; [apply (Hcall CallDeletePrinter deletePrinter)|].
  split; [apply (Hcall CallDisablePrinter disablePrinter)|].
  split; [apply (Hcall CallEnablePrinter enablePrinter)|].
  intros filename title options x w2 Hprint. unfold Printer.print, bind at 1.
  rewrite validate_cases, Hps, (bool_decide_eq_true_2 _ Hin).
  unfold bind, Printer.name, get_self, on_env, invoke. simpl. fold n.
  rewrite Hprint. unfold after. simpl. now rewrite <- app_assoc.
Qed.

(** *** Every outcome of an assignment to [name] *)

Lemma name_setter_cases (p : Printer.t) (n : string) (e : env W) :
  Printer.name_setter n (p, e) =
  let renamed := Printer.set__name n p in
  match getPrinters (world e) with
  | (Raise x, w1) => (Raise x, (renamed, mk_env w1 (calls e ++ [CallGetPrinters])))
  | (Ok ps, w1) =>
      if bool_decide (n ∈ ps) then
        let log := calls e ++ [CallGetPrinters; CallGetPrinterAttributes n] in
        match getPrinterAttributes n w1 with
        | (Raise x, w2) => (Raise x, (renamed, mk_env w2 log))
        | (Ok a, w2) =>
            let cached := Printer.set_attributes (Some a) renamed in
            match a !! "device-uri" with
            | None => (Raise (mk_exn KeyError [VStr "device-uri"]), (cached, mk_env w2 log))
            | Some uri =>
                match a !! "printer-location" with
                | None =>
                    (Raise (mk_exn KeyError [VStr "printer-location"]),
                     (Printer.set_device_uri uri cached, mk_env w2 log))
                | Some loc =>
                    (Ok tt,
                     (Printer.set_location loc (Printer.set_device_uri uri cached),
                      mk_env w2 log))
                end
            end
        end
      else (Ok tt, (renamed, mk_env w1 (calls e ++ [CallGetPrinters])))
  end.
Proof.
  unfold Printer.name_setter. cbv zeta.
  erewrite bind_Ok; [|reflexivity]. unfold bind at 1. rewrite valid_cases.
  cbn [Printer.set__name Printer._name fst snd world calls].
  destruct (getPrinters (world e)) as [[ps|x] w1]; [|reflexivity].
  destruct (bool_decide (n ∈ ps)); [|reflexivity].
  unfold bind, Printer.name, get_self, on_env, invoke, modify_self, lift_res, getitem, ret.
  simpl.
  destruct (getPrinterAttributes n w1) as [[a|x] w2]; simpl;
    [|now rewrite <- app_assoc].
  destruct (a !! "device-uri") as [uri|]; simpl; [|now rewrite <- app_assoc].
  destruct (a !! "printer-location") as [loc|]; simpl; now rewrite <- app_assoc.
Qed.

(** X6. An assignment to [name] renames first and validates afterwards:
    in every outcome, an exception included, the [Printer] ends up bearing
    the new name, and [job_id] and [default_message] are as before. *)
Theorem name_setter_renames_in_every_outcome :
  forall (p : Printer.t) (n : string) (e : env W),
    let p' := fst (snd (Printer.name_setter n (p, e))) in
    Printer._name p' = n
    /\ Printer.job_id p' = Printer.job_id p
    /\ Printer.default_message p' = Printer.default_message p.
Proof.
  intros p n e. rewrite name_setter_cases. cbv zeta.
  destruct (getPrinters (world e)) as [[ps|x] w1]; [|repeat split].
  destruct (bool_decide (n ∈ ps)); [|repeat split].
  destruct (getPrinterAttributes n w1) as [[a|x] w2]; [|repeat split].
  destruct (a !! "device-uri") as [uri|]; [|repeat split].
  destruct (a !! "printer-location") as [loc|]; repeat split.
Qed.

(** X7. An assignment to [name] is not atomic: when the dict the library
    returns for a listed queue lacks ['device-uri'], the assignment raises
    [KeyError] with the new name and the new dict already stored and the
    old URI and location kept; when it lacks ['printer-location'] only,
    the URI is already the new one and the location the old one. *)
Theorem name_setter_partial_update :
  forall (p : Printer.t) (n : string) (e : env W) (ps : list string)
         (a : attrs) (w1 w2 : W),
    getPrinters (world e) = (Ok ps, w1) ->
    n ∈ ps ->
    getPrinterAttributes n w1 = (Ok a, w2) ->
    let log := mk_env w2 (calls e ++ [CallGetPrinters; CallGetPrinterAttributes n]) in
    (a !! "device-uri" = None ->
     Printer.name_setter n (p, e)
     = (Raise (mk_exn KeyError [VStr "device-uri"]),
        (Printer.mk (Printer.job_id p) (Some a) (Printer.device_uri p)
           (Printer.location p) (Printer.default_message p) n, log)))
    /\
    (forall uri, a !! "device-uri" = Some uri ->
                 a !! "printer-location" = None ->
     Printer.name_setter n (p, e)
     = (Raise (mk_exn KeyError [VStr "printer-location"]),
        (Printer.mk (Printer.job_id p) (Some a) uri
           (Printer.location p) (Printer.default_message p) n, log))).
Proof.
  intros p n e ps a w1 w2 Hps Hin Ha log.
  split; [intros Huri | intros uri Huri Hloc];
    rewrite name_setter_cases; cbv zeta;
    rewrite Hps, (bool_decide_eq_true_2 _ Hin), Ha, Huri; [|rewrite Hloc]; reflexivity.
Qed.

(** *** What [Printer(name)] returns *)

Lemma new_cases (n : string) (e : env W) :
  Printer.new n e =
  match Connection (world e) with
  | (Ok _, w1) =>
      match Printer.name_setter n
              (Printer.mk VNone None VNone VNone "Unable to locate the printer."
                 EmptyString,
               mk_env w1 (calls e ++ [CallConnection])) with
      | (Ok _, (p, e')) => (Ok p, e')
      | (Raise x, (_, e')) => (Raise x, e')
      end
  | (Raise x, w1) => (Raise x, mk_env w1 (calls e ++ [CallConnection]))
  end.
Proof.
  destruct (Connection (world e)) as [[[]|x] w1] eqn:Hc.
  - unfold Printer.new, construct. now rewrite (init_run n e w1 Hc).
  - unfold Printer.new, construct, Printer.init, BaseCUPS_init, bind, on_env, invoke.
    simpl. now rewrite Hc.
Qed.

Lemma new_shape (n : string) (e e' : env W) (p : Printer.t) :
  Printer.new n e = (Ok p, e') ->
  Printer._name p = n
  /\ Printer.job_id p = VNone
  /\ Printer.default_message p = "Unable to locate the printer."
  /\ coherent p.
Proof.
  rewrite new_cases.
  destruct (Connection (world e)) as [[u|x] w0]; [|discriminate].
  rewrite name_setter_cases. cbv zeta. cbn [world calls].
  destruct (getPrinters w0) as [[ps|x] w1]; [|discriminate].
  destruct (bool_decide (n ∈ ps)).
  - destruct (getPrinterAttributes n w1) as [[a|x] w2]; [|discriminate].
    destruct (a !! "device-uri") as [uri|] eqn:Huri; [|discriminate].
    destruct (a !! "printer-location") as [loc|] eqn:Hloc; [|discriminate].
    intros Hp. inversion Hp; subst. unfold coherent. simpl. repeat split; assumption.
  - intros Hp. inversion Hp; subst. unfold coherent. simpl. repeat split.
Qed.

(** X8. The cache stays coherent across operations that return: a
    [Printer] that [Printer(name)] returns has [device_uri] and [location]
    equal to the ['device-uri'] and ['printer-location'] entries of its
    cached dict (all [None] when nothing is cached), and an assignment to
    [name] or a [print] that returns keeps it so. *)
Theorem cache_coherence :
  (forall (n : string) (e e' : env W) (p : Printer.t),
      Printer.new n e = (Ok p, e') -> coherent p)
  /\
  (forall (p p' : Printer.t) (n : string) (e e' : env W),
      coherent p ->
      Printer.name_setter n (p, e) = (Ok tt, (p', e')) -> coherent p')
  /\
  (forall (p p' : Printer.t) (filename title : string)
          (options : gmap string string) (r : res pyval) (e e' : env W),
      coherent p ->
      Printer.print filename title options (p, e) = (r, (p', e')) -> coherent p').
Proof.
  split; [|split].
  - intros n e e' p Hnew. exact (proj2 (proj2 (proj2 (new_shape n e e' p Hnew)))).
  - intros p p' n e e' Hco. rewrite name_setter_cases. cbv zeta.
    destruct (getPrinters (world e)) as [[ps|x] w1]; [|discriminate].
    destruct (bool_decide (n ∈ ps)).
    + destruct (getPrinterAttributes n w1) as [[a|x] w2]; [|discriminate].
      destruct (a !! "device-uri") as [uri|] eqn:Huri; [|discriminate].
      destruct (a !! "printer-location") as [loc|] eqn:Hloc; [|discriminate].
      intros Hp. inversion Hp; subst. unfold coherent. simpl. now split.
    + intros Hp. inversion Hp; subst. exact Hco.
  - intros p p' filename title options r e e' Hco Hrun.
    pose proof (print_frame p e filename title options) as Hframe.
    rewrite Hrun in Hframe. destruct r as [v|x].
    + destruct Hframe as [-> _]. exact Hco.
    + now subst.
Qed.

Lemma status_unlisted (p : Printer.t) (e : env W) (ps : list string) (w1 : W) :
  getPrinters (world e) = (Ok ps, w1) ->
  Printer._name p ∉ ps ->
  Printer.status (p, e)
  = (Ok (VStr (Printer.default_message p)),
     (p, mk_env w1 (calls e ++ [CallGetPrinters]))).
Proof.
  intros Hps Hout. unfold Printer.status, bind at 1, get_self. cbn [fst snd].
  unfold bind at 1. rewrite valid_cases, Hps.
  now rewrite (bool_decide_eq_false_2 _ Hout).
Qed.

Lemma printer_status_cases (p : Printer.t) (e : env W) :
  Printer.status (p, e) =
  let n := Printer._name p in
  match getPrinters (world e) with
  | (Raise x, w1) => (Raise x, (p, mk_env w1 (calls e ++ [CallGetPrinters])))
  | (Ok ps, w1) =>
      if bool_decide (n ∈ ps) then
        let log2 := calls e ++ [CallGetPrinters; CallGetPrinterAttributes n] in
        let log3 := log2 ++ [CallGetPrinterAttributes n] in
        match getPrinterAttributes n w1 with
        | (Raise x, w2) => (Raise x, (p, mk_env w2 log2))
        | (Ok a1, w2) =>
            match a1 !! "printer-state" with
            | None => (Raise (mk_exn KeyError [VStr "printer-state"]), (p, mk_env w2 log2))
            | Some state =>
                match getPrinterAttributes n w2 with
                | (Raise x, w3) => (Raise x, (p, mk_env w3 log3))
                | (Ok a2, w3) =>
                    match a2 !! "printer-state-reasons" with
                    | None =>
                        (Raise (mk_exn KeyError [VStr "printer-state-reasons"]),
                         (p, mk_env w3 log3))
                    | Some reasons =>
                        (describe Printer.printer_states state reasons,
                         (p, mk_env w3 log3))
                    end
                end
            end
        end
      else (Ok (VStr (Printer.default_message p)),
            (p, mk_env w1 (calls e ++ [CallGetPrinters])))
  end.
Proof.
  cbv zeta. unfold Printer.status, bind at 1, get_self. cbn [fst snd].
  unfold bind at 1. rewrite valid_cases.
  destruct (getPrinters (world e)) as [[ps|x] w1]; [|reflexivity].
  destruct (bool_decide _); [|reflexivity].
  unfold bind, Printer.name, get_self, on_env, invoke, lift_res, getitem, ret. simpl.
  destruct (getPrinterAttributes (Printer._name p) w1) as [[a1|x] w2]; simpl;
    [|now rewrite <- app_assoc].
  destruct (a1 !! "printer-state") as [state|]; simpl; [|now rewrite <- app_assoc].
  destruct (getPrinterAttributes (Printer._name p) w2) as [[a2|x] w3]; simpl;
    [|now rewrite <- !app_assoc].
  destruct (a2 !! "printer-state-reasons") as [reasons|]; simpl;
    [|now rewrite <- !app_assoc].
  erewrite try_except_describe; [now rewrite <- !app_assoc|].
  apply printer_status_try_eq.
Qed.

(** X9. What a fresh [Printer] shows: for every [Printer] that
    [Printer(name)] returns, [__str__] is the name, [__repr__] is the name
    between ["Printer: <"] and [">"], [__iter__] yields the name followed by
    the cached URI and location ([None] twice when nothing is cached), and
    as long as the name is not listed [status] is the default message
    ['Unable to locate the printer.'], found with one list-printers call. *)
Theorem fresh_printer_views :
  forall (n : string) (e e' : env W) (p : Printer.t),
    Printer.new n e = (Ok p, e') ->
    Printer.str p = n
    /\ Printer.repr p = "Printer: <" +:+ n +:+ ">"
    /\ (exists uri loc,
          Printer.iter p = [VStr n; uri; loc]
          /\ match Printer.attributes p with
             | Some a => a !! "device-uri" = Some uri
                         /\ a !! "printer-location" = Some loc
             | None => uri = VNone /\ loc = VNone
             end)
    /\ (forall (ps : list string) (w1 : W),
          getPrinters (world e') = (Ok ps, w1) ->
          n ∉ ps ->
          Printer.status (p, e')
          = (Ok (VStr "Unable to locate the printer."),
             (p, mk_env w1 (calls e' ++ [CallGetPrinters])))).
Proof.
  intros n e e' p Hnew.
  destruct (new_shape n e e' p Hnew) as (Hname & _ & Hmsg & Hco).
  split; [unfold Printer.str, format1; simpl; now rewrite append_empty, Hname|].
  split; [unfold Printer.repr, format1; simpl; now rewrite Hname|].
  split.
  - exists (Printer.device_uri p), (Printer.location p).
    split; [unfold Printer.iter; now rewrite Hname | exact Hco].
  - intros ps w1 Hps Hout. rewrite <- Hmsg. apply (status_unlisted p e' ps w1 Hps).
    now rewrite Hname.
Qed.

(** X10. How [Job.status] fails once the library has answered: a dict
    without ['job-state'] or without ['job-state-reasons'] raises
    [KeyError] naming the missing key, and a state code outside the table
    with reasons other than [['none']] raises [TypeError] (the concatenation
    of [None] and a string); each time the dict is already stored in
    [attributes]. *)
Theorem job_status_failures :
  forall (j : Job.t) (e : env W) (a : attrs) (w' : W),
    getJobAttributes (Job.job_id j) (world e) = (Ok a, w') ->
    let after := (Job.set_attributes (Some a) j,
                  mk_env w' (calls e ++ [CallGetJobAttributes (Job.job_id j)])) in
    (a !! "job-state" = None ->
     Job.status (j, e) = (Raise (mk_exn KeyError [VStr "job-state"]), after))
    /\
    (is_Some (a !! "job-state") ->
     a !! "job-state-reasons" = None ->
     Job.status (j, e) = (Raise (mk_exn KeyError [VStr "job-state-reasons"]), after))
    /\
    (forall (code : Z) (reasons : pyval),
        a !! "job-state" = Some (VInt code) ->
        claimed_job_state code = None ->
        a !! "job-state-reasons" = Some reasons ->
        reasons <> only_none ->
        exists x, Job.status (j, e) = (Raise x, after) /\ exn_class x = TypeError).
Proof.
  intros j e a w' Hlib after. rewrite job_status_cases, Hlib. unfold getitem.
  split; [|split].
  - intros ->. reflexivity.
  - intros [state ->] ->. reflexivity.
  - intros code reasons -> Hcode -> Hne. simpl.
    destruct (describe_unknown_with_reasons Job.job_states code reasons
                (job_states_unclaimed _ Hcode) Hne) as (x & -> & Hx).
    now exists x.
Qed.

(** X11. What [status] can return: a value [Job.status] returns is [None]
    or a string that starts with one of the seven state names, and a value
    [Printer.status] returns is the printer's default message, [None], or a
    string that starts with one of the three state names; neither ever
    yields ['Not detected.'] from the state table. *)
Theorem status_results :
  (forall (j : Job.t) (e : env W) (v : pyval) (s : Job.t * env W),
      Job.status (j, e) = (Ok v, s) ->
      (v = VNone
       \/ exists code text rest,
            claimed_job_state code = Some text /\ v = VStr (text +:+ rest))
      /\ v <> VStr "Not detected.")
  /\
  (forall (p : Printer.t) (e : env W) (v : pyval) (s : Printer.t * env W),
      Printer.status (p, e) = (Ok v, s) ->
      v = VStr (Printer.default_message p)
      \/ (v = VNone
          \/ exists code text rest,
               claimed_printer_state code = Some text /\ v = VStr (text +:+ rest))
         /\ v <> VStr "Not detected.").
Proof.
  split.
  - intros j e v s. rewrite job_status_cases.
    destruct (getJobAttributes (Job.job_id j) (world e)) as [[a|x] w']; [|discriminate].
    unfold getitem.
    destruct (a !! "job-state") as [state|]; [|discriminate].
    destruct (a !! "job-state-reasons") as [reasons|]; [|discriminate].
    simpl. intros Hv. inversion Hv as [[Hd Hs]]. clear Hv Hs.
    apply describe_ok in Hd as [->|(code & text & rest & Hl & ->)].
    + split; [now left | discriminate].
    + apply job_states_lookup in Hl. split; [right; now exists code, text, rest|].
      intros Heq. inversion Heq as [Htext].
      exact (job_text_detected code text rest Hl Htext).
  - intros p e v s. rewrite printer_status_cases. cbv zeta.
    destruct (getPrinters (world e)) as [[ps|x] w1]; [|discriminate].
    destruct (bool_decide _); [|intros Hv; inversion Hv; now left].
    destruct (getPrinterAttributes (Printer._name p) w1) as [[a1|x] w2]; [|discriminate].
    destruct (a1 !! "printer-state") as [state|]; [|discriminate].
    destruct (getPrinterAttributes (Printer._name p) w2) as [[a2|x] w3]; [|discriminate].
    destruct (a2 !! "printer-state-reasons") as [reasons|]; [|discriminate].
    intros Hv. inversion Hv as [[Hd Hs]]. clear Hv Hs. right.
    apply describe_ok in Hd as [->|(code & text & rest & Hl & ->)].
    + split; [now left | discriminate].
    + apply printer_states_lookup in Hl. split; [right; now exists code, text, rest|].
      intros Heq. inversion Heq as [Htext].
      exact (printer_text_detected code text rest Hl Htext).
Qed.

(** X12. How [Printer.status] fails for a listed printer: the state and
    the reasons come from two separate attribute fetches; a first dict
    without ['printer-state'] raises [KeyError] before the second fetch is
    made, a second dict without ['printer-state-reasons'] raises
    [KeyError] after it, and a state code outside the table with reasons
    other than [['none']] raises [TypeError]. *)
Theorem printer_status_failures :
  forall (p : Printer.t) (e : env W) (ps : list string) (a1 : attrs) (w1 w2 : W),
    getPrinters (world e) = (Ok ps, w1) ->
    Printer._name p ∈ ps ->
    getPrinterAttributes (Printer._name p) w1 = (Ok a1, w2) ->
    let n := Printer._name p in
    let once := calls e ++ [CallGetPrinters; CallGetPrinterAttributes n] in
    let twice := once ++ [CallGetPrinterAttributes n] in
    (a1 !! "printer-state" = None ->
     Printer.status (p, e)
     = (Raise (mk_exn KeyError [VStr "printer-state"]), (p, mk_env w2 once)))
    /\
    (forall (a2 : attrs) (w3 : W),
        is_Some (a1 !! "printer-state") ->
        getPrinterAttributes n w2 = (Ok a2, w3) ->
        a2 !! "printer-state-reasons" = None ->
        Printer.status (p, e)
        = (Raise (mk_exn KeyError [VStr "printer-state-reasons"]),
           (p, mk_env w3 twice)))
    /\
    (forall (a2 : attrs) (w3 : W) (code : Z) (reasons : pyval),
        a1 !! "printer-state" = Some (VInt code) ->
        claimed_printer_state code = None ->
        getPrinterAttributes n w2 = (Ok a2, w3) ->
        a2 !! "printer-state-reasons" = Some reasons ->
        reasons <> only_none ->
        exists x, Printer.status (p, e) = (Raise x, (p, mk_env w3 twice))
                  /\ exn_class x = TypeError).
Proof.
  intros p e ps a1 w1 w2 Hps Hin Ha1 n once twice. subst n once twice.
  rewrite printer_status_cases. cbv zeta.
  rewrite Hps, (bool_decide_eq_true_2 _ Hin), Ha1.
  split; [|split].
  - intros ->. reflexivity.
  - intros a2 w3 [state ->] -> ->. reflexivity.
  - intros a2 w3 code reasons -> Hcode -> -> Hne.
    destruct (describe_unknown_with_reasons Printer.printer_states code reasons
                (printer_states_unclaimed _ Hcode) Hne) as (x & -> & Hx).
    now exists x.
Qed.

(** *** Listings *)

Lemma job_list_stops (good : list string) :
  forall (ids : list pyval) (bad : string) (rest : list string) (x : exn)
         (w : W) (cs : list call),
    Connection w = (Ok tt, w) ->
    Forall2 (fun n id => Job.job_number n = Ok id) good ids ->
    Job.job_number bad = Raise x ->
    comprehension
      (fun controlfile =>
         id <- lift_res (Job.job_number controlfile) ;; Job.new id)
      (good ++ bad :: rest) (mk_env w cs)
    = (Raise x, mk_env w (cs ++ repeat CallConnection (length ids))).
Proof.
  induction good as [|n good IH]; intros ids bad rest x w cs Hc Hall Hbad.
  - inversion Hall; subst. cbn [app comprehension length repeat].
    rewrite app_nil_r. apply bind_Raise. apply bind_Raise.
    unfold lift_res. now rewrite Hbad.
  - inversion Hall as [|n' id good' ids' Hn Hrest]; subst.
    cbn [app comprehension].
    erewrite bind_Ok;
      [|erewrite bind_Ok;
        [apply (job_new_ok id (mk_env w cs) w Hc)
        |unfold lift_res; now rewrite Hn]].
    erewrite bind_Raise;
      [|apply (IH ids' bad rest x w (cs ++ [CallConnection]) Hc Hrest Hbad)].
    cbn [length repeat]. now rewrite <- app_assoc.
Qed.

(** X13. [Job.list] is all or nothing: [job_number] fails with
    [ValueError] only, and when the first entry matching ['c*'] whose name
    it cannot convert follows [k] entries it can, [Job.list] raises that
    [ValueError] and returns no job at all, having opened the [k]
    connections of the jobs it had already built. *)
Theorem job_list_all_or_nothing :
  forall (e : env W) (good rest : list string) (bad : string)
         (ids : list pyval) (x : exn),
    Connection (world e) = (Ok tt, world e) ->
    Job.glob_c (spool (world e)) = good ++ bad :: rest ->
    Forall2 (fun n id => Job.job_number n = Ok id) good ids ->
    Job.job_number bad = Raise x ->
    Job.list e
    = (Raise x, mk_env (world e) (calls e ++ repeat CallConnection (length ids)))
    /\ exn_class x = ValueError.
Proof.
  intros [w cs] good rest bad ids x Hc Hglob Hall Hbad. cbn [world calls] in *.
  split; [|exact (job_number_raises bad x Hbad)].
  unfold Job.list, bind at 1, get. cbn [world]. rewrite Hglob.
  now apply job_list_stops.
Qed.

Lemma new_at_rest_listed (w : W) (ps : list string) (n : string) (cs : list call) :
  at_rest w ps ->
  n ∈ ps ->
  exists p, Printer.new n (mk_env w cs) = (Ok p, mk_env w (cs ++ construction_calls n))
            /\ Printer._name p = n
            /\ is_Some (Printer.attributes p).
Proof.
  intros (Hc & Hps & Hattrs) Hin.
  destruct (Hattrs n Hin) as (a & Ha & [uri Huri] & [loc Hloc]).
  eexists. split;
    [exact (new_listed n (mk_env w cs) ps a uri loc w w w Hc Hps Hin Ha Huri Hloc)|].
  split; [reflexivity | now eexists].
Qed.

Lemma get_printers_at_rest (w : W) (ps : list string) (names : list string) :
  at_rest w ps ->
  (forall n, n ∈ names -> n ∈ ps) ->
  forall cs, exists printers,
    comprehension Printer.new names (mk_env w cs)
    = (Ok printers, mk_env w (cs ++ concat (map construction_calls names)))
    /\ Forall2 (fun n p => Printer._name p = n /\ is_Some (Printer.attributes p))
         names printers.
Proof.
  intros Hrest. induction names as [|n names IH]; intros Hsub cs.
  - exists []. split; [cbn; unfold ret; now rewrite app_nil_r | constructor].
  - destruct (new_at_rest_listed w ps n cs Hrest) as (p & Hnew & Hname & Hattrs).
    { apply Hsub. apply list_elem_of_here. }
    destruct (IH (fun m Hm => Hsub m (list_elem_of_further _ _ _ Hm))
                (cs ++ construction_calls n)) as (printers & Hrec & Hall).
    exists (p :: printers). cbn [comprehension].
    erewrite bind_Ok; [|exact Hnew]. erewrite bind_Ok; [|exact Hrec].
    split; [|constructor; [now split | exact Hall]].
    unfold ret. cbn [map concat]. now rewrite <- app_assoc.
Qed.

(** X14. The library traffic of [get_printers]: on a server at rest with
    queues [ps] it returns one [Printer] per queue, each with its dict
    cached, after one list-printers call followed, for each queue in turn,
    by a new connection, another list-printers call and one attribute
    fetch: [1 + 3 * length ps] calls in all. *)
Theorem get_printers_traffic :
  forall (e : env W) (ps : list string),
    at_rest (world e) ps ->
    exists printers,
      CUPS.get_printers e
      = (Ok printers,
         mk_env (world e)
           (calls e ++ CallGetPrinters :: concat (map construction_calls ps)))
      /\ Forall2 (fun n p => Printer._name p = n /\ is_Some (Printer.attributes p))
           ps printers
      /\ length (CallGetPrinters :: concat (map construction_calls ps))
         = (1 + 3 * length ps)%nat.
Proof.
  intros [w cs] ps Hrest. cbn [world calls] in *.
  destruct (get_printers_at_rest w ps ps Hrest (fun n Hn => Hn) (cs ++ [CallGetPrinters]))
    as (printers & Hrun & Hall).
  exists printers. split; [|split; [exact Hall|]].
  - unfold CUPS.get_printers. destruct Hrest as (_ & Hps & _).
    erewrite bind_Ok; [|unfold invoke; cbn [world calls]; rewrite Hps; reflexivity].
    rewrite Hrun. now rewrite <- app_assoc.
  - cbn [length]. now rewrite construction_calls_length.
Qed.

Lemma name_setter_at_rest (w : W) (ps : list string) (p : Printer.t) (n : string)
    (cs : list call) :
  at_rest w ps ->
  exists p' cs',
    Printer.name_setter n (p, mk_env w cs) = (Ok tt, (p', mk_env w cs'))
    /\ Printer.job_id p' = Printer.job_id p
    /\ Printer.default_message p' = Printer.default_message p.
Proof.
  intros (Hc & Hps & Hattrs).
  destruct (decide (n ∈ ps)) as [Hin|Hout].
  - destruct (Hattrs n Hin) as (a & Ha & [uri Huri] & [loc Hloc]).
    eexists _, _. split;
      [exact (name_setter_listed p (mk_env w cs) n ps a uri loc w w Hps Hin Ha Huri Hloc)|].
    split; reflexivity.
  - eexists _, _. split;
      [exact (name_setter_unlisted p (mk_env w cs) n ps w Hps Hout)|].
    split; reflexivity.
Qed.

(** X15. Renaming and renaming back: on a server at rest, a [Printer]
    built for a listed queue [m] and then assigned any other name [n],
    listed or not, is exactly the [Printer] it was once [m] is assigned
    again; assigning [m] to it straight away changes nothing. *)
Theorem rename_round_trip :
  forall (w : W) (ps : list string) (m n : string) (cs cs1 cs2 : list call)
         (p : Printer.t),
    at_rest w ps ->
    m ∈ ps ->
    Printer.new m (mk_env w cs) = (Ok p, mk_env w cs1) ->
    (exists p' cs3 cs4,
        Printer.name_setter n (p, mk_env w cs2) = (Ok tt, (p', mk_env w cs3))
        /\ Printer.name_setter m (p', mk_env w cs3) = (Ok tt, (p, mk_env w cs4)))
    /\
    (exists cs3,
        Printer.name_setter m (p, mk_env w cs2) = (Ok tt, (p, mk_env w cs3))).
Proof.
  intros w ps m n cs cs1 cs2 p Hrest Hin Hnew.
  pose proof Hrest as (Hc & Hps & Hattrs).
  destruct (Hattrs m Hin) as (a & Ha & [uri Huri] & [loc Hloc]).
  rewrite (new_listed m (mk_env w cs) ps a uri loc w w w Hc Hps Hin Ha Huri Hloc) in Hnew.
  inversion Hnew as [[Hp Hcs]]. clear Hnew Hcs. subst p.
  assert (Hback : forall (q : Printer.t) (cs' : list call),
             Printer.job_id q = VNone ->
             Printer.default_message q = "Unable to locate the printer." ->
             exists cs'',
               Printer.name_setter m (q, mk_env w cs')
               = (Ok tt,
                  (Printer.mk VNone (Some a) uri loc "Unable to locate the printer." m,
                   mk_env w cs''))).
  { intros q cs' Hid Hmsg. eexists.
    rewrite (name_setter_listed q (mk_env w cs') m ps a uri loc w w Hps Hin Ha Huri Hloc).
    now rewrite Hid, Hmsg. }
  split.
  - destruct (name_setter_at_rest w ps
                (Printer.mk VNone (Some a) uri loc "Unable to locate the printer." m)
                n cs2 Hrest) as (p' & cs3 & Hrun & Hid & Hmsg).
    destruct (Hback p' cs3 Hid Hmsg) as (cs4 & Hrun').
    now exists p', cs3, cs4.
  - exact (Hback (Printer.mk VNone (Some a) uri loc "Unable to locate the printer." m)
             cs2 eq_refl eq_refl).
Qed.

End Coverage.

(** ** The further properties at work on the sample servers *)

Lemma job_id_round_trip_witness :
  Job.job_number (String "c" (zeros 2 +:+ Job.str (Job.mk (VInt 123) None)))
  = Ok (VInt 123).
Proof. apply (proj1 (job_id_round_trip 2 123)). lia. Defined.

Lemma relabelling_keeps_ipp_errors_witness :
  caught_by IPPError (job_not_found (Job.mk (VInt 99) None)) = true
  <-> ipp_raised (getJobAttributes (Job.job_id (Job.mk (VInt 99) None))
                    (world Sample.start)).
Proof.
  apply (proj1 (@relabelling_keeps_ipp_errors Sample.server Sample.library (Job.mk (VInt 99) None) Sample.start
                  (job_not_found (Job.mk (VInt 99) None))
                  (Job.mk (VInt 99) None,
                   mk_env Sample.office [CallGetJobAttributes (VInt 99)]))).
  run.
Defined.

Lemma job_methods_pass_through_witness :
  Job.cancel (Sample.unnumbered, Sample.start)
  = (Raise Sample.bad_argument,
     (Sample.unnumbered,
      mk_env Sample.office
        (calls Sample.start ++ [CallCancelJob (Job.job_id Sample.unnumbered)]))).
Proof.
  apply (proj1 (proj2 (proj1 (@job_methods_pass_through Sample.server Sample.library)
                         Sample.unnumbered Sample.start Sample.bad_argument
                         Sample.office ltac:(run)))).
  run.
Defined.

Lemma printer_operations_forward_witness :
  Printer.disable (Sample.printer_of "laser" Sample.laser, Sample.start)
  = (fst (disablePrinter "laser" Sample.office),
     (Sample.printer_of "laser" Sample.laser,
      mk_env (snd (disablePrinter "laser" Sample.office))
        (calls Sample.start ++ [CallGetPrinters; CallDisablePrinter "laser"]))).
Proof.
  apply (proj1 (proj2 (@printer_operations_forward Sample.server Sample.library
                         (Sample.printer_of "laser" Sample.laser) Sample.start
                         ["laser"; "inkjet"; "plotter"] Sample.office
                         ltac:(reflexivity) ltac:(decided)))).
Defined.

Lemma name_setter_partial_update_witness :
  Printer.name_setter "bare" (Sample.ghost, Sample.workshop_start)
  = (Raise (mk_exn KeyError [VStr "device-uri"]),
     (Printer.mk (Printer.job_id Sample.ghost) (Some Sample.bare)
        (Printer.device_uri Sample.ghost) (Printer.location Sample.ghost)
        (Printer.default_message Sample.ghost) "bare",
      mk_env Sample.workshop
        (calls Sample.workshop_start
         ++ [CallGetPrinters; CallGetPrinterAttributes "bare"]))).
Proof.
  apply (proj1 (@name_setter_partial_update Sample.server Sample.library Sample.ghost "bare" Sample.workshop_start
                  ["laser"; "bare"; "half"] Sample.bare Sample.workshop Sample.workshop
                  ltac:(reflexivity) ltac:(decided) ltac:(run))).
  run.
Defined.

Lemma cache_coherence_witness :
  coherent (Sample.printer_of "laser" Sample.laser).
Proof.
  apply (proj1 (@cache_coherence Sample.server Sample.library) "laser" Sample.start
           (mk_env Sample.office (construction_calls "laser"))).
  run.
Defined.

Lemma fresh_printer_views_witness :
  Printer.str Sample.ghost = "ghost"
  /\ Printer.repr Sample.ghost = "Printer: <" +:+ "ghost" +:+ ">"
  /\ Printer.status (Sample.ghost, mk_env Sample.office [CallConnection; CallGetPrinters])
     = (Ok (VStr "Unable to locate the printer."),
        (Sample.ghost,
         mk_env Sample.office
           (calls (mk_env Sample.office [CallConnection; CallGetPrinters])
            ++ [CallGetPrinters]))).
Proof.
  destruct (@fresh_printer_views Sample.server Sample.library "ghost" Sample.start
              (mk_env Sample.office [CallConnection; CallGetPrinters])
              Sample.ghost ltac:(run)) as (Hstr & Hrepr & _ & Hstatus).
  split; [exact Hstr|]. split; [exact Hrepr|].
  apply (Hstatus ["laser"; "inkjet"; "plotter"] Sample.office);
    [reflexivity | decided].
Defined.

Lemma job_status_failures_witness :
  Job.status (Job.mk (VInt 20) None, Sample.workshop_start)
  = (Raise (mk_exn KeyError [VStr "job-state"]),
     (Job.set_attributes (Some Sample.job20) (Job.mk (VInt 20) None),
      mk_env Sample.workshop
        (calls Sample.workshop_start
         ++ [CallGetJobAttributes (Job.job_id (Job.mk (VInt 20) None))])))
  /\
  Job.status (Job.mk (VInt 21) None, Sample.workshop_start)
  = (Raise (mk_exn KeyError [VStr "job-state-reasons"]),
     (Job.set_attributes (Some Sample.job21) (Job.mk (VInt 21) None),
      mk_env Sample.workshop
        (calls Sample.workshop_start
         ++ [CallGetJobAttributes (Job.job_id (Job.mk (VInt 21) None))])))
  /\
  (exists x,
     Job.status (Job.mk (VInt 22) None, Sample.workshop_start)
     = (Raise x,
        (Job.set_attributes (Some Sample.job22) (Job.mk (VInt 22) None),
         mk_env Sample.workshop
           (calls Sample.workshop_start
            ++ [CallGetJobAttributes (Job.job_id (Job.mk (VInt 22) None))])))
     /\ exn_class x = TypeError).
Proof.
  split; [|split].
  - apply (proj1 (@job_status_failures Sample.server Sample.library (Job.mk (VInt 20) None) Sample.workshop_start
                    Sample.job20 Sample.workshop ltac:(run))).
    run.
  - apply (proj1 (proj2 (@job_status_failures Sample.server Sample.library (Job.mk (VInt 21) None)
                           Sample.workshop_start Sample.job21 Sample.workshop
                           ltac:(run)))).
    + eexists. run.
    + run.
  - apply (proj2 (proj2 (@job_status_failures Sample.server Sample.library (Job.mk (VInt 22) None)
                           Sample.workshop_start Sample.job22 Sample.workshop
                           ltac:(run))) 2 (VList [VStr "job-incoming"]));
      [run | reflexivity | run | discriminate].
Defined.

Lemma status_results_witness :
  (VStr "Completed" = VNone
   \/ exists code text rest,
        claimed_job_state code = Some text /\ VStr "Completed" = VStr (text +:+ rest))
  /\ VStr "Completed" <> VStr "Not detected.".
Proof.
  apply (proj1 (@status_results Sample.server Sample.library)
           (Job.mk (VInt 12) None) Sample.start (VStr "Completed")
           (Job.set_attributes (Some Sample.job12) (Job.mk (VInt 12) None),
            mk_env Sample.office [CallGetJobAttributes (VInt 12)])).
  run.
Defined.

Lemma printer_status_failures_witness :
  Printer.status (Sample.printer_of "half" Sample.half, Sample.workshop_start)
  = (Raise (mk_exn KeyError [VStr "printer-state-reasons"]),
     (Sample.printer_of "half" Sample.half,
      mk_env Sample.workshop
        ((calls Sample.workshop_start
          ++ [CallGetPrinters;
              CallGetPrinterAttributes
                (Printer._name (Sample.printer_of "half" Sample.half))])
         ++ [CallGetPrinterAttributes
               (Printer._name (Sample.printer_of "half" Sample.half))]))).
Proof.
  apply (proj1 (proj2 (@printer_status_failures Sample.server Sample.library
                         (Sample.printer_of "half" Sample.half) Sample.workshop_start
                         ["laser"; "bare"; "half"] Sample.half
                         Sample.workshop Sample.workshop
                         ltac:(reflexivity) ltac:(decided) ltac:(run)))
           Sample.half Sample.workshop);
    [eexists; run | run | run].
Defined.

Lemma job_list_all_or_nothing_witness :
  Job.list Sample.workshop_start
  = (Raise (mk_exn ValueError
              [VStr "invalid literal for int() with base 10: 'ups.log'"]),
     mk_env (world Sample.workshop_start)
       (calls Sample.workshop_start ++ repeat CallConnection (length [VInt 20])))
  /\ exn_class (mk_exn ValueError
                  [VStr "invalid literal for int() with base 10: 'ups.log'"])
     = ValueError.
Proof.
  apply (@job_list_all_or_nothing Sample.server Sample.library Sample.workshop_start ["c00020"] ["c00021"] "cups.log"
           [VInt 20]); [reflexivity | run | | run].
  constructor; [run | constructor].
Defined.

Lemma get_printers_traffic_witness :
  exists printers,
    CUPS.get_printers Sample.start
    = (Ok printers,
       mk_env (world Sample.start)
         (calls Sample.start
          ++ CallGetPrinters
             :: concat (map construction_calls ["laser"; "inkjet"; "plotter"])))
    /\ Forall2 (fun n p => Printer._name p = n /\ is_Some (Printer.attributes p))
         ["laser"; "inkjet"; "plotter"] printers
    /\ length (CallGetPrinters
               :: concat (map construction_calls ["laser"; "inkjet"; "plotter"]))
       = (1 + 3 * length ["laser"; "inkjet"; "plotter"])%nat.
Proof.
  exact (@get_printers_traffic Sample.server Sample.library Sample.start ["laser"; "inkjet"; "plotter"] office_at_rest).
Defined.

Lemma rename_round_trip_witness :
  (exists p' cs3 cs4,
      Printer.name_setter "ghost" (Sample.printer_of "laser" Sample.laser,
                                   mk_env Sample.office [])
      = (Ok tt, (p', mk_env Sample.office cs3))
      /\ Printer.name_setter "laser" (p', mk_env Sample.office cs3)
         = (Ok tt, (Sample.printer_of "laser" Sample.laser, mk_env Sample.office cs4)))
  /\
  (exists cs3,
      Printer.name_setter "laser" (Sample.printer_of "laser" Sample.laser,
                                   mk_env Sample.office [])
      = (Ok tt, (Sample.printer_of "laser" Sample.laser, mk_env Sample.office cs3))).
Proof.
  apply (@rename_round_trip Sample.server Sample.library Sample.office
           ["laser"; "inkjet"; "plotter"] "laser" "ghost" []
           (construction_calls "laser") []);
    [exact office_at_rest | decided | run].
Defined.
